(** * Medical Prescription Analyzer: session and workflow orchestration

    A shallow embedding of [app.py].  One execution of the script (one
    Streamlit run) is a computation over the session state, the document
    store, the rendered page and the log of HTTP requests; the widget
    values, the OCR engine, the store's failures, the clock and the chat
    completion service are inputs of the run. *)

From Stdlib Require Import String Ascii ZArith List Lia Bool.
From stdpp Require Import base tactics option list sorting pretty strings.

Set Warnings "-register-all".

Local Open Scope string_scope.
Local Open Scope Z_scope.
Local Open Scope nat_scope.
Local Open Scope list_scope.
Local Open Scope stdpp_scope.

(** ** Python strings *)

Module PyStr.

(** The line feed, written [\n] in the source. *)
Definition nl : string := String "010"%char EmptyString.

(** The double quote. *)
Definition dq : string := String "034"%char EmptyString.

(** [bool(s)] for a [str]. *)
Definition truthy (s : string) : bool :=
  match s with
  | EmptyString => false
  | String _ _ => true
  end.

(** [bool(v)] for a value that is [None] or a [str]. *)
Definition truthy_opt (v : option string) : bool :=
  match v with
  | None => false
  | Some s => truthy s
  end.

(** [str.isspace] on one character; characters are code points below 256. *)
Definition isspace (c : ascii) : bool :=
  let n := nat_of_ascii c in
  ((9 <=? n) && (n <=? 13)) || ((28 <=? n) && (n <=? 32))
  || (n =? 133) || (n =? 160).

Fixpoint lstrip (s : string) : string :=
  match s with
  | EmptyString => EmptyString
  | String c s' => if isspace c then lstrip s' else s
  end.

Definition rstrip (s : string) : string :=
  String.rev (lstrip (String.rev s)).

(** [s.strip()] *)
Definition strip (s : string) : string := rstrip (lstrip s).

(** [s.split(sep)] for a separator of one character. *)
Fixpoint split (sep : ascii) (s : string) : list string :=
  match s with
  | EmptyString => [EmptyString]
  | String c s' =>
      if Ascii.eqb c sep then EmptyString :: split sep s'
      else match split sep s' with
           | h :: t => String c h :: t
           | [] => [String c EmptyString]
           end
  end.

(** [sep.join(l)] *)
Fixpoint join (sep : string) (l : list string) : string :=
  match l with
  | [] => EmptyString
  | x :: l' =>
      match l' with
      | [] => x
      | _ :: _ => x +:+ sep +:+ join sep l'
      end
  end.

Definition digit (c : ascii) : option Z :=
  let n := nat_of_ascii c in
  if (48 <=? n) && (n <=? 57) then Some (Z.of_nat (n - 48)) else None.

(** Digits of an integer literal after the first one: single underscores
    are allowed between digits. *)
Fixpoint digits (acc : Z) (s : string) : option Z :=
  match s with
  | EmptyString => Some acc
  | String c s' =>
      match digit c with
      | Some d => digits (10 * acc + d)%Z s'
      | None =>
          if Ascii.eqb c "_" then
            match s' with
            | String c' s'' =>
                match digit c' with
                | Some d => digits (10 * acc + d)%Z s''
                | None => None
                end
            | EmptyString => None
            end
          else None
      end
  end.

Definition unsigned (s : string) : option Z :=
  match s with
  | String c s' =>
      match digit c with
      | Some d => digits d s'
      | None => None
      end
  | EmptyString => None
  end.

(** [int(s)] in base ten; [None] stands for [ValueError]. *)
Definition int (s : string) : option Z :=
  match strip s with
  | String "+" r => unsigned r
  | String "-" r => Z.opp <$> unsigned r
  | t => unsigned t
  end.

(** [l[i]] on a list, negative indices counting from the end; [None]
    stands for [IndexError]. *)
Definition index {A} (l : list A) (i : Z) : option A :=
  if (0 <=? i)%Z then l !! Z.to_nat i
  else if (- Z.of_nat (length l) <=? i)%Z
       then l !! Z.to_nat (Z.of_nat (length l) + i)
       else None.

(** [str(n)] for a natural number. *)
Definition of_nat (n : nat) : string := pretty n.

End PyStr.

(** ** Values, exceptions and decoded JSON *)

(** A raised exception: its class and what [str(e)] gives. *)
Record exn := Exception { exn_class : string; exn_str : string }.

Inductive result (A : Type) : Type :=
| Ok (a : A)
| Raised (e : exn).
Arguments Ok {A} a.
Arguments Raised {A} e.

(** What [response.json()] decodes to: [dict], [list], [str], [int],
    [float], [bool] or [None].  A [dict] is kept as its items; lookup takes
    the first item with the key. *)
Inductive json :=
| JNull
| JBool (b : bool)
| JInt (z : Z)
| JFloat (repr : string)
| JStr (s : string)
| JArr (l : list json)
| JObj (items : list (string * json)).

Module Py.

Definition KeyError (key_repr : string) : exn := Exception "KeyError" key_repr.
Definition IndexError (msg : string) : exn := Exception "IndexError" msg.
Definition TypeError (msg : string) : exn := Exception "TypeError" msg.
Definition ValueError (msg : string) : exn := Exception "ValueError" msg.

Definition type_name (v : json) : string :=
  match v with
  | JNull => "NoneType"
  | JBool _ => "bool"
  | JInt _ => "int"
  | JFloat _ => "float"
  | JStr _ => "str"
  | JArr _ => "list"
  | JObj _ => "dict"
  end.

Fixpoint assoc (k : string) (items : list (string * json)) : option json :=
  match items with
  | [] => None
  | (k', v) :: rest => if String.eqb k k' then Some v else assoc k rest
  end.

Definition not_subscriptable (v : json) : exn :=
  TypeError ("'" +:+ type_name v +:+ "' object is not subscriptable").

(** [v[k]] for a string [k]. *)
Definition getitem_str (v : json) (k : string) : result json :=
  match v with
  | JObj items =>
      match assoc k items with
      | Some x => Ok x
      | None => Raised (KeyError ("'" +:+ k +:+ "'"))
      end
  | JArr _ => Raised (TypeError "list indices must be integers or slices, not str")
  | JStr _ => Raised (TypeError "string indices must be integers, not 'str'")
  | _ => Raised (not_subscriptable v)
  end.

(** [v[i]] for a non-negative integer [i]; the keys of a decoded JSON
    object are strings, so an integer is never one of them. *)
Definition getitem_int (v : json) (i : nat) : result json :=
  match v with
  | JObj _ => Raised (KeyError (pretty i))
  | JArr l =>
      match l !! i with
      | Some x => Ok x
      | None => Raised (IndexError "list index out of range")
      end
  | JStr s =>
      match String.get i s with
      | Some c => Ok (JStr (String c EmptyString))
      | None => Raised (IndexError "string index out of range")
      end
  | _ => Raised (not_subscriptable v)
  end.

End Py.

(** ** Data model *)

Inductive Page := ExtractText | ChatWithData | DirectChat.

Definition page_name (p : Page) : string :=
  match p with
  | ExtractText => "Extract Text"
  | ChatWithData => "Chat with Prescription Data"
  | DirectChat => "Direct Chat"
  end.

Inductive Role := user | assistant.

Definition role_name (r : Role) : string :=
  match r with
  | user => "user"
  | assistant => "assistant"
  end.

(** An entry of [st.session_state.chat_history].  The content of a user
    message is a [str]; the content of an assistant message is whatever
    [query_mistral_api] returned. *)
Record ChatMessage := { role : Role; content : json }.

(** [datetime] values, ordered as integers. *)
Definition datetime := Z.
Definition ObjectId := string.

(** A document of the collection [extracted_texts]. *)
Record Prescription := {
  doc_id : ObjectId;
  extracted_text : string;
  upload_date : datetime
}.

(** [st.session_state]: a key is absent ([None]) or bound.
    [current_prescription] is bound to [None] or to a [str]. *)
Record SessionState := {
  page : option Page;
  chat_history : option (list ChatMessage);
  current_prescription : option (option string)
}.

(** What a run renders, in call order. *)
Inductive UI :=
| st_title (body : string)
| st_write (body : json)
| st_subheader (body : string)
| st_success (body : string)
| st_info (body : string)
| st_warning (body : string)
| st_error (body : string)
| st_sidebar_title (body : string)
| st_sidebar_radio (label : string) (options : list string)
| st_file_uploader (label : string) (types : list string)
| st_image (caption : string)
| st_button (label : string) (key : option string)
| st_spinner (text : string)
| st_text_area (label : string) (value : option string) (key : option string)
| st_columns (n : nat)
| st_selectbox (label : string) (options : list string)
| st_expander (label : string)
| st_chat_message (name : string)
| st_chat_input (placeholder : string).

Record Request := {
  url : string;
  headers : list (string * string);
  payload : json
}.

(** An HTTP response: what [raise_for_status] raises, if anything, and what
    [json()] gives. *)
Record Response := {
  status_error : option exn;
  body : result json
}.

Definition UploadedFile := string.
Inductive Image := decoded (file : UploadedFile).

(** The inputs of one run: the environment, the widget values and the
    answers of the external services. *)
Record Env := {
  MISTRAL_API_KEY : option string;
  mongo_ping : option exn;
  datetime_now : datetime;
  insert_one : result ObjectId;
  find_error : option exn;
  radio : Page;
  file_uploader : option UploadedFile;
  Image_open : UploadedFile -> result Image;
  image_to_string : Image -> result string;
  button : string -> bool;
  selectbox : list string -> nat;
  chat_input : option string;
  requests_post : Request -> result Response
}.

(** What a run acts on: the session state and the store persist from run
    to run; the rendered page and the request log are the run's own. *)
Record World := {
  session_state : SessionState;
  store : list Prescription;
  ui : list UI;
  net : list Request
}.

Definition with_session (f : SessionState -> SessionState) (w : World) : World :=
  {| session_state := f (session_state w); store := store w;
     ui := ui w; net := net w |}.

Definition set_page (p : Page) (s : SessionState) : SessionState :=
  {| page := Some p; chat_history := chat_history s;
     current_prescription := current_prescription s |}.

Definition set_chat_history (h : list ChatMessage) (s : SessionState) : SessionState :=
  {| page := page s; chat_history := Some h;
     current_prescription := current_prescription s |}.

Definition set_current_prescription (v : option string) (s : SessionState) : SessionState :=
  {| page := page s; chat_history := chat_history s;
     current_prescription := Some v |}.

Definition render (e : UI) (w : World) : World :=
  {| session_state := session_state w; store := store w;
     ui := ui w ++ [e]; net := net w |}.

Definition sent (r : Request) (w : World) : World :=
  {| session_state := session_state w; store := store w;
     ui := ui w; net := net w ++ [r] |}.

Definition stored (d : Prescription) (w : World) : World :=
  {| session_state := session_state w; store := store w ++ [d];
     ui := ui w; net := net w |}.

(** ** The monad of a run *)

(** A computation ends with a value or leaves early: [return] out of
    [main], [st.rerun()], or an exception. *)
Inductive Exit := Return | Rerun | Raise (e : exn).

Definition M (A : Type) : Type := World -> (A + Exit) * World.

Definition ret {A} (a : A) : M A := fun w => (inl a, w).

Definition bind {A B} (m : M A) (k : A -> M B) : M B :=
  fun w =>
    match m w with
    | (inl a, w') => k a w'
    | (inr x, w') => (inr x, w')
    end.

Definition leave {A} (x : Exit) : M A := fun w => (inr x, w).

Definition gets {A} (f : World -> A) : M A := fun w => (inl (f w), w).

Definition modify (f : World -> World) : M unit := fun w => (inl tt, f w).

Declare Scope run_scope.
Delimit Scope run_scope with run.
Notation "'let*' x ':=' m 'in' k" := (bind m (fun x => k))
  (at level 10, x name, m at level 100, k at level 200) : run_scope.
Notation "m '>>' k" := (bind m (fun _ => k))
  (at level 100, k at level 200, right associativity) : run_scope.
Local Open Scope run_scope.

Definition emit (e : UI) : M unit := modify (render e).

Definition lift {A} (r : result A) : M A :=
  match r with
  | Ok a => ret a
  | Raised e => leave (Raise e)
  end.

(** [try: m  except Exception as e: h e].  [st.rerun()] and [return] are
    not exceptions of class [Exception] and pass through. *)
Definition try_except {A} (m : M A) (h : exn -> M A) : M A :=
  fun w =>
    match m w with
    | (inr (Raise e), w') => h e w'
    | r => r
    end.

(** The call of a function whose body may [return] early. *)
Definition call (m : M unit) : M unit :=
  fun w =>
    match m w with
    | (inr Return, w') => (inl tt, w')
    | r => r
    end.

Fixpoint for_each {A} (l : list A) (f : A -> M unit) : M unit :=
  match l with
  | [] => ret tt
  | x :: l' => f x >> for_each l' f
  end.

Definition when (b : bool) (m : M unit) : M unit :=
  if b then m else ret tt.

Global Instance Page_eq_dec : EqDecision Page.
Proof. solve_decision. Defined.

(** ** The application *)

(** The collection [db[COLLECTION_NAME]]. *)
Inductive Collection := extracted_texts.

(** [collection.find().sort("upload_date", -1)]: the documents, newest
    first.  The store promises no order among documents of equal date; the
    merge sort gives them one. *)
Definition newer_first (a b : Prescription) : Prop :=
  (upload_date b <= upload_date a)%Z.

Global Instance newer_first_dec : RelDecision newer_first.
Proof. intros a b. unfold newer_first. apply _. Defined.

Definition find_sorted (docs : list Prescription) : list Prescription :=
  merge_sort newer_first docs.

Section App.

(** [str(d)] for a [datetime], as the f-strings render it. *)
Variable str_datetime : datetime -> string.

(** The inputs of the run. *)
Variable env : Env.

(** *** Widgets and session state *)

Definition st_rerun {A} : M A := leave Rerun.

(** [st.button(label, key=key)]: true in the run that its click
    triggered.  A button without a key is identified by its label. *)
Definition button_ (label : string) (key : option string) : M bool :=
  emit (st_button label key) >> ret (button env (default label key)).

(** [st.selectbox(label, options)]: one of the options, the first one
    unless the user chose another. *)
Definition selectbox_ (label : string) (options : list string) : M string :=
  emit (st_selectbox label options) >>
  ret (default (default EmptyString (head options)) (options !! selectbox env options)).

Definition AttributeError (key : string) : exn :=
  Exception "AttributeError"
    ("st.session_state has no attribute " +:+ PyStr.dq +:+ key +:+ PyStr.dq +:+ ".").

(** [st.session_state.chat_history] *)
Definition read_chat_history : M (list ChatMessage) :=
  let* bound := gets (fun w => chat_history (session_state w)) in
  match bound with
  | Some h => ret h
  | None => leave (Raise (AttributeError "chat_history"))
  end.

(** [st.session_state.chat_history.append(m)] *)
Definition append_message (m : ChatMessage) : M unit :=
  let* h := read_chat_history in
  modify (with_session (set_chat_history (h ++ [m]))).

(** [st.session_state.current_prescription] *)
Definition read_current_prescription : M (option string) :=
  let* bound := gets (fun w => current_prescription (session_state w)) in
  match bound with
  | Some v => ret v
  | None => leave (Raise (AttributeError "current_prescription"))
  end.

(** [st.session_state.page] *)
Definition read_page : M Page :=
  let* bound := gets (fun w => page (session_state w)) in
  match bound with
  | Some p => ret p
  | None => leave (Raise (AttributeError "page"))
  end.

(** *** The functions of [app.py] *)

Definition get_db_connection : M (option Collection) :=
  match mongo_ping env with
  | None =>
      emit (st_success "Database connection successful!") >>
      ret (Some extracted_texts)
  | Some e =>
      emit (st_warning ("Database connection error: " +:+ exn_str e
                        +:+ ". Some features will be limited.")) >>
      ret None
  end.

Definition extract_text_from_image (image : Image) : M (option string) :=
  match image_to_string env image with
  | Ok text =>
      ret (Some (if PyStr.truthy text then PyStr.strip text
                 else "No text detected"))
  | Raised e =>
      emit (st_error ("Error extracting text: " +:+ exn_str e)) >>
      ret None
  end.

Definition save_to_database (extracted_text : string) (collection : Collection)
  : M (option ObjectId) :=
  match insert_one env with
  | Ok inserted_id =>
      modify (stored {| doc_id := inserted_id;
                        extracted_text := extracted_text;
                        upload_date := datetime_now env |}) >>
      emit (st_write (JStr ("Insert operation result: " +:+ inserted_id))) >>
      ret (Some inserted_id)
  | Raised e =>
      emit (st_error ("Error saving to database: " +:+ exn_str e)) >>
      ret None
  end.

Definition fetch_stored_prescriptions (collection : Collection)
  : M (list Prescription) :=
  match find_error env with
  | None => let* docs := gets store in ret (find_sorted docs)
  | Some e =>
      emit (st_error ("Error fetching prescriptions: " +:+ exn_str e)) >>
      ret []
  end.

Definition no_api_key : string :=
  "Error: Mistral API key not found. Please set it in the .env file.".

Definition general_system_message : string :=
  "You are a helpful medical assistant that can answer general medical questions. Note that you are not a replacement for professional medical advice.".

Definition system_message_for (prescription_data : option string) : string :=
  match prescription_data with
  | Some data =>
      if PyStr.truthy data then
        let context := PyStr.nl +:+ "Prescription data: " +:+ data in
        "You are a medical assistant that helps analyze prescription data. Answer questions based on the following prescription data:"
          +:+ context
      else general_system_message
  | None => general_system_message
  end.

Definition completion_request (key prompt : string)
    (prescription_data : option string) : Request :=
  {| url := "https://api.mistral.ai/v1/chat/completions";
     headers := [("Authorization", "Bearer " +:+ key);
                 ("Content-Type", "application/json")];
     payload :=
       JObj [("model", JStr "mistral-large-latest");
             ("messages",
               JArr [JObj [("role", JStr "system");
                           ("content", JStr (system_message_for prescription_data))];
                     JObj [("role", JStr "user"); ("content", JStr prompt)]]);
             ("temperature", JFloat "0.7");
             ("max_tokens", JInt 500)] |}.

(** [requests.post(url, headers=headers, json=payload)] *)
Definition post (r : Request) : M Response :=
  modify (sent r) >> lift (requests_post env r).

Definition raise_for_status (response : Response) : M unit :=
  match status_error response with
  | Some e => leave (Raise e)
  | None => ret tt
  end.

(** The body of the [try] of [query_mistral_api]. *)
Definition query_mistral_api_try (prompt : string)
    (prescription_data : option string) : M json :=
  match MISTRAL_API_KEY env with
  | Some key =>
      if PyStr.truthy key then
        let* response := post (completion_request key prompt prescription_data) in
        raise_for_status response >>
        let* result := lift (body response) in
        let* choices := lift (Py.getitem_str result "choices") in
        let* choice := lift (Py.getitem_int choices 0) in
        let* message := lift (Py.getitem_str choice "message") in
        lift (Py.getitem_str message "content")
      else ret (JStr no_api_key)
  | None => ret (JStr no_api_key)
  end.

Definition query_mistral_api (prompt : string)
    (prescription_data : option string) : M json :=
  try_except (query_mistral_api_try prompt prescription_data)
    (fun e => ret (JStr ("Error querying Mistral API: " +:+ exn_str e))).

Definition clear_key : string := "clear_chat_history_button".

Definition display_chat_interface (prescription_data : option string) : M unit :=
  (if PyStr.truthy_opt prescription_data
   then emit (st_subheader "Chat with your Prescription Data")
   else emit (st_subheader "Direct Medical Chat")) >>
  let* bound := gets (fun w => chat_history (session_state w)) in
  when (bool_decide (bound = None))
    (modify (with_session (set_chat_history []))) >>
  let* history := read_chat_history in
  for_each history (fun message =>
    emit (st_chat_message (role_name (role message))) >>
    emit (st_write (content message))) >>
  let placeholder :=
    if PyStr.truthy_opt prescription_data then "Ask about your prescription..."
    else "Ask any medical question..." in
  let* user_query := (emit (st_chat_input placeholder) >> ret (chat_input env)) in
  match user_query with
  | Some query =>
      when (PyStr.truthy query)
        (append_message {| role := user; content := JStr query |} >>
         emit (st_chat_message "user") >>
         emit (st_write (JStr query)) >>
         emit (st_spinner "Thinking...") >>
         let* response := query_mistral_api query prescription_data in
         append_message {| role := assistant; content := response |} >>
         emit (st_chat_message "assistant") >>
         emit (st_write response))
  | None => ret tt
  end >>
  let* history := read_chat_history in
  match history with
  | _ :: _ =>
      let* clicked := button_ "Clear Chat History" (Some clear_key) in
      when clicked
        (modify (with_session (set_chat_history [])) >> st_rerun)
  | [] => ret tt
  end.

(** *** [main] *)

(** Lines 238-244 and 247-253: the button "Chat with this Prescription",
    written twice in [main] with two keys. *)
Definition chat_with_this_prescription (key extracted_text : string) : M unit :=
  let* clicked := button_ "Chat with this Prescription" (Some key) in
  when clicked
    (modify (with_session (set_current_prescription (Some extracted_text))) >>
     modify (with_session (set_page ChatWithData)) >>
     st_rerun).

(** Lines 213-220: the column of "Submit to Database". *)
Definition submit_to_database (extracted_text : string) (collection : Collection)
  : M unit :=
  let* clicked := button_ "Submit to Database" (Some "submit_to_db_button") in
  when clicked
    (emit (st_spinner "Saving to database...") >>
     let* result_id := save_to_database extracted_text collection in
     match result_id with
     | Some id => emit (st_success ("Successfully saved! Document ID: " +:+ id))
     | None => emit (st_error "Failed to save to database. Check MongoDB status.")
     end).

(** Lines 222-235: the column of "View Stored Prescriptions". *)
Definition view_stored_prescriptions (collection : Collection) : M unit :=
  let* clicked :=
    button_ "View Stored Prescriptions" (Some "view_prescriptions_button") in
  when clicked
    (emit (st_spinner "Fetching prescriptions...") >>
     let* prescriptions := fetch_stored_prescriptions collection in
     match prescriptions with
     | _ :: _ =>
         emit (st_subheader "Stored Prescriptions") >>
         for_each (imap pair prescriptions) (fun '(idx, prescription) =>
           emit (st_write (JStr ("Prescription " +:+ PyStr.of_nat (idx + 1) +:+ " - "
                                 +:+ str_datetime (upload_date prescription)))) >>
           emit (st_text_area ("Text " +:+ PyStr.of_nat (idx + 1))
                   (Some (extracted_text prescription))
                   (Some ("text_" +:+ PyStr.of_nat idx))))
     | [] => emit (st_info "No prescriptions found in database")
     end).

(** Lines 192-255: the page "Extract Text". *)
Definition main_extract_text (collection : option Collection) : M unit :=
  emit (st_file_uploader "Choose an image..." ["jpg"; "png"; "jpeg"]) >>
  match file_uploader env with
  | None => ret tt
  | Some uploaded_file =>
      let* image := lift (Image_open env uploaded_file) in
      emit (st_image "Uploaded Prescription") >>
      let* clicked := button_ "Extract Text" None in
      when clicked
        (emit (st_spinner "Processing image...") >>
         let* extracted_text := extract_text_from_image image in
         match extracted_text with
         | Some extracted_text =>
             when (PyStr.truthy extracted_text)
               (emit (st_subheader "Extracted Text") >>
                emit (st_text_area "Result" (Some extracted_text)
                        (Some "extracted_text_area")) >>
                match collection with
                | Some collection =>
                    emit (st_columns 3) >>
                    submit_to_database extracted_text collection >>
                    view_stored_prescriptions collection >>
                    chat_with_this_prescription "chat_prescription_button"
                      extracted_text
                | None =>
                    chat_with_this_prescription "chat_prescription_no_db_button"
                      extracted_text >>
                    emit (st_warning "Database connection failed. You can still chat with the prescription but it won't be saved.")
                end)
         | None => ret tt
         end)
  end.

(** Line 261 *)
Definition has_current_prescription (s : SessionState) : bool :=
  match current_prescription s with
  | Some v => PyStr.truthy_opt v
  | None => false
  end.

(** Lines 273-274: the label of the stored record at position [idx]. *)
Definition prescription_option (idx : nat) (prescription : Prescription) : string :=
  "Prescription " +:+ PyStr.of_nat (idx + 1) +:+ " - "
    +:+ str_datetime (upload_date prescription).

(** Lines 273-279 *)
Definition prescription_options (has_current : bool)
    (prescriptions : list Prescription) : list string :=
  let options := imap prescription_option prescriptions in
  let options := "All Prescriptions" :: options in
  if has_current then "Current Extracted Prescription" :: options else options.

(** Lines 285-286 *)
Definition all_prescriptions (prescriptions : list Prescription) : string :=
  PyStr.join (PyStr.nl +:+ PyStr.nl)
    (imap (fun idx prescription =>
             "Prescription " +:+ PyStr.of_nat (idx + 1) +:+ ":" +:+ PyStr.nl
               +:+ extracted_text prescription)
          prescriptions).

(** Lines 290-292 *)
Definition stored_prescription (selected_option : string)
    (prescriptions : list Prescription) : M (option string) :=
  match PyStr.split " " selected_option !! 1 with
  | None => leave (Raise (Py.IndexError "list index out of range"))
  | Some field =>
      match PyStr.int field with
      | None => leave (Raise (Py.ValueError "invalid literal for int() with base 10"))
      | Some n =>
          let idx := (n - 1)%Z in
          match PyStr.index prescriptions idx with
          | None => leave (Raise (Py.IndexError "list index out of range"))
          | Some prescription => ret (Some (extracted_text prescription))
          end
      end
  end.

Definition guidance_empty_store : string :=
  "No prescriptions found in database. Please extract text first or use Direct Chat.".

Definition guidance_no_store : string :=
  "No prescription data available. Please extract text first or use Direct Chat.".

(** Lines 257-313: the page "Chat with Prescription Data". *)
Definition main_chat_with_data (collection : option Collection) : M unit :=
  emit (st_subheader "Chat with Prescription Data") >>
  let* has_current :=
    gets (fun w => has_current_prescription (session_state w)) in
  let* prescription_data :=
    match collection with
    | Some collection =>
        let* prescriptions := fetch_stored_prescriptions collection in
        match prescriptions with
        | _ :: _ =>
            let* selected_option :=
              selectbox_ "Choose prescription data to query"
                (prescription_options has_current prescriptions) in
            if String.eqb selected_option "All Prescriptions" then
              ret (Some (all_prescriptions prescriptions))
            else if String.eqb selected_option "Current Extracted Prescription" then
              read_current_prescription
            else stored_prescription selected_option prescriptions
        | [] =>
            if has_current then
              emit (st_info "Using current extracted prescription data.") >>
              read_current_prescription
            else
              emit (st_info guidance_empty_store) >> leave Return
        end
    | None =>
        if has_current then
          emit (st_info "Using current extracted prescription data.") >>
          read_current_prescription
        else
          emit (st_warning guidance_no_store) >> leave Return
    end in
  emit (st_expander "View Selected Prescription Data") >>
  emit (st_text_area "Prescription Data" prescription_data None) >>
  display_chat_interface prescription_data.

(** Lines 315-320: the page "Direct Chat". *)
Definition main_direct_chat : M unit :=
  emit (st_subheader "Direct Chat with Medical Assistant") >>
  emit (st_write (JStr "Chat directly with the medical assistant without any prescription data.")) >>
  display_chat_interface None.

(** Lines 184-190 *)
Definition connect_if_needed (page : Page) : M (option Collection) :=
  match page with
  | ExtractText | ChatWithData =>
      let* collection := get_db_connection in
      when (bool_decide (collection = None) && bool_decide (page = ChatWithData))
        (emit (st_warning "Database connection failed. Some features may be limited.")) >>
      ret collection
  | DirectChat => ret None
  end.

Definition main_body : M unit :=
  emit (st_title "Medical Prescription Analyzer") >>
  emit (st_write (JStr "Upload a handwritten medical prescription to extract text or chat directly")) >>
  emit (st_sidebar_title "Navigation") >>
  let* bound := gets (fun w => page (session_state w)) in
  when (bool_decide (bound = None))
    (modify (with_session (set_page ExtractText))) >>
  let* selected_page :=
    (emit (st_sidebar_radio "Go to" (map page_name [ExtractText; ChatWithData; DirectChat])) >>
     ret (radio env)) in
  let* current := read_page in
  when (negb (bool_decide (selected_page = current)))
    (modify (with_session (set_page selected_page)) >> st_rerun) >>
  let* page := read_page in
  let* collection := connect_if_needed page in
  match page with
  | ExtractText => main_extract_text collection
  | ChatWithData => main_chat_with_data collection
  | DirectChat => main_direct_chat
  end.

Definition main : M unit := call main_body.

(** Lines 322-327: the script. *)
Definition script : M unit :=
  let* bound := gets (fun w => current_prescription (session_state w)) in
  when (bool_decide (bound = None))
    (modify (with_session (set_current_prescription None))) >>
  main.

(** One run: the page is rendered anew and the run's request log starts
    empty. *)
Definition fresh (w : World) : World :=
  {| session_state := session_state w; store := store w; ui := []; net := [] |}.

Definition run (w : World) : (unit + Exit) * World := script (fresh w).

End App.

(** ** Observations and sessions *)

(** The chat transcript; an unbound key reads as the empty transcript. *)
Definition history (w : World) : list ChatMessage :=
  default [] (chat_history (session_state w)).

(** The active prescription text: the string bound to
    [current_prescription], if any. *)
Definition active_prescription_text (w : World) : option string :=
  match current_prescription (session_state w) with
  | Some (Some text) => Some text
  | _ => None
  end.

(** The spinner of line 149: rendered once per chat turn. *)
Definition is_thinking (e : UI) : bool :=
  match e with
  | st_spinner text => String.eqb text "Thinking..."
  | _ => false
  end.

Definition is_clear_button (e : UI) : bool :=
  match e with
  | st_button _ (Some key) => String.eqb key clear_key
  | _ => false
  end.

Definition is_chat_input (e : UI) : bool :=
  match e with
  | st_chat_input _ => true
  | _ => false
  end.

(** The widgets of the chat panel. *)
Definition chat_widget (e : UI) : bool :=
  is_thinking e || is_clear_button e || is_chat_input e.

Definition chat_widgets (page : list UI) : list UI := List.filter chat_widget page.

(** The chat turns a rendered page shows as processed. *)
Definition turns (page : list UI) : nat := length (List.filter is_thinking page).

(** The control "Clear Chat History" was rendered and clicked. *)
Definition cleared (env : Env) (page : list UI) : bool :=
  existsb is_clear_button page && button env clear_key.

(** The roles of a transcript of [n] turns: user, assistant, user,
    assistant, and so on. *)
Fixpoint alternation (n : nat) : list Role :=
  match n with
  | 0 => []
  | S n' => user :: assistant :: alternation n'
  end.

Definition empty_session : SessionState :=
  {| page := None; chat_history := None; current_prescription := None |}.

(** The start of a session over a store holding [docs]. *)
Definition initial (docs : list Prescription) : World :=
  {| session_state := empty_session; store := docs; ui := []; net := [] |}.

Section Sessions.

Variable str_datetime : datetime -> string.

(** A session: the runs of the script, one per list of inputs. *)
Fixpoint run_session (envs : list Env) (w : World) : World :=
  match envs with
  | [] => w
  | env :: rest => run_session rest (run str_datetime env w).2
  end.

(** All chat turns completed in a session. *)
Fixpoint completed_turns (envs : list Env) (w : World) : nat :=
  match envs with
  | [] => 0
  | env :: rest =>
      let w' := (run str_datetime env w).2 in
      turns (ui w') + completed_turns rest w'
  end.

(** The chat turns completed since the transcript was last cleared,
    [n] of them before the runs [envs]. *)
Fixpoint turns_since_clear (n : nat) (envs : list Env) (w : World) : nat :=
  match envs with
  | [] => n
  | env :: rest =>
      let w' := (run str_datetime env w).2 in
      turns_since_clear
        (if cleared env (ui w') then 0 else n + turns (ui w')) rest w'
  end.

(** The worlds a session can be in: it starts with an empty session state,
    the script runs, and between runs the store, which other clients share,
    may change. *)
Inductive reachable : World -> Prop :=
| reachable_initial docs : reachable (initial docs)
| reachable_run env w : reachable w -> reachable (run str_datetime env w).2
| reachable_store docs w :
    reachable w ->
    reachable {| session_state := session_state w; store := docs;
                 ui := ui w; net := net w |}.

End Sessions.

(** ** Reasoning about runs *)

(** [m] relates every world to the world it leaves. *)
Definition keeps {A} (R : relation World) (m : M A) : Prop :=
  forall w, R w (m w).2.

(** The active prescription slot is left as it was. *)
Definition same_prescription : relation World :=
  fun w w' =>
    current_prescription (session_state w') = current_prescription (session_state w).

(** The rendered page only grows. *)
Definition ui_grows : relation World :=
  fun w w' => ui w `prefix_of` ui w'.

(** Transcript, request log and chat widgets are left as they were. *)
Definition chat_untouched : relation World :=
  fun w w' =>
    chat_history (session_state w') = chat_history (session_state w)
    /\ net w' = net w
    /\ chat_widgets (ui w') = chat_widgets (ui w).

(** ** The chat completion call, in closed form *)

Section Completion.

Variable env : Env.

(** The credential, when [not MISTRAL_API_KEY] is false. *)
Definition credential : option string :=
  match MISTRAL_API_KEY env with
  | Some key => if PyStr.truthy key then Some key else None
  | None => None
  end.

(** The path [result["choices"][0]["message"]["content"]]. *)
Definition completion_text (parsed : json) : result json :=
  match Py.getitem_str parsed "choices" with
  | Raised e => Raised e
  | Ok choices =>
      match Py.getitem_int choices 0 with
      | Raised e => Raised e
      | Ok choice =>
          match Py.getitem_str choice "message" with
          | Raised e => Raised e
          | Ok message => Py.getitem_str message "content"
          end
      end
  end.

(** What the service call of lines 109-114 comes to, for a request. *)
Definition service_call (r : Request) : result json :=
  match requests_post env r with
  | Raised e => Raised e
  | Ok response =>
      match status_error response with
      | Some e => Raised e
      | None =>
          match body response with
          | Raised e => Raised e
          | Ok result => completion_text result
          end
      end
  end.

Definition service_error (e : exn) : json :=
  JStr ("Error querying Mistral API: " +:+ exn_str e).

(** The value [query_mistral_api] returns. *)
Definition answer (prompt : string) (data : option string) : json :=
  match credential with
  | None => JStr no_api_key
  | Some key =>
      match service_call (completion_request key prompt data) with
      | Ok text => text
      | Raised e => service_error e
      end
  end.

(** The requests [query_mistral_api] sends. *)
Definition requests (prompt : string) (data : option string) : list Request :=
  match credential with
  | None => []
  | Some key => [completion_request key prompt data]
  end.

Definition sends (rs : list Request) (w : World) : World :=
  {| session_state := session_state w; store := store w;
     ui := ui w; net := net w ++ rs |}.

End Completion.

(** ** The chat panel, in closed form *)

Definition renders (es : list UI) (w : World) : World :=
  {| session_state := session_state w; store := store w;
     ui := ui w ++ es; net := net w |}.

(** Lines 132-134: the transcript as rendered. *)
Definition transcript_view (h : list ChatMessage) : list UI :=
  flat_map (fun message =>
              [st_chat_message (role_name (role message));
               st_write (content message)]) h.

Section Panel.

Variable env : Env.

(** The query of the run, when [if user_query:] holds. *)
Definition submitted : option string :=
  match chat_input env with
  | Some query => if PyStr.truthy query then Some query else None
  | None => None
  end.

(** The two messages a turn appends. *)
Definition turn_messages (data : option string) : list ChatMessage :=
  match submitted with
  | Some query =>
      [{| role := user; content := JStr query |};
       {| role := assistant; content := answer env query data |}]
  | None => []
  end.

Definition turn_view (data : option string) : list UI :=
  match submitted with
  | Some query =>
      [st_chat_message "user"; st_write (JStr query);
       st_spinner "Thinking...";
       st_chat_message "assistant"; st_write (answer env query data)]
  | None => []
  end.

Definition turn_requests (data : option string) : list Request :=
  match submitted with
  | Some query => requests env query data
  | None => []
  end.

Definition clear_view (h : list ChatMessage) : list UI :=
  match h with
  | [] => []
  | _ :: _ => [st_button "Clear Chat History" (Some clear_key)]
  end.

Definition clear_clicked (h : list ChatMessage) : bool :=
  match h with
  | [] => false
  | _ :: _ => button env clear_key
  end.

Definition panel_view (data : option string) (h : list ChatMessage) : list UI :=
  [st_subheader (if PyStr.truthy_opt data
                 then "Chat with your Prescription Data"
                 else "Direct Medical Chat")]
  ++ transcript_view h
  ++ [st_chat_input (if PyStr.truthy_opt data
                     then "Ask about your prescription..."
                     else "Ask any medical question...")]
  ++ turn_view data
  ++ clear_view (h ++ turn_messages data).

(** The world [display_chat_interface] leaves. *)
Definition after_panel (data : option string) (w : World) : World :=
  let h := history w ++ turn_messages data in
  {| session_state :=
       set_chat_history (if clear_clicked h then [] else h) (session_state w);
     store := store w;
     ui := ui w ++ panel_view data (history w);
     net := net w ++ turn_requests data |}.

Definition panel_exit (data : option string) (w : World) : unit + Exit :=
  if clear_clicked (history w ++ turn_messages data) then inr Rerun else inl tt.

End Panel.

(** ** What one run does to the transcript *)

(** [m] either leaves the chat untouched or ends in the chat panel. *)
Definition panel_or_not (env : Env) {A} (m : M A) : Prop :=
  forall w,
    chat_untouched w (m w).2
    \/ exists data w_mid,
         chat_untouched w w_mid /\ (m w).2 = after_panel env data w_mid.

(** From [w] to [w'] no turn or one turn was processed, and the
    transcript was emptied if the clear control was clicked. *)
Definition chat_step (env : Env) (w w' : World) : Prop :=
  exists msgs,
    history w' = (if cleared env (ui w') then [] else history w ++ msgs)
    /\ ((msgs = [] /\ net w' = [] /\ turns (ui w') = 0)
        \/ exists query data,
             chat_input env = Some query
             /\ PyStr.truthy query = true
             /\ msgs = [{| role := user; content := JStr query |};
                        {| role := assistant; content := answer env query data |}]
             /\ net w' = requests env query data
             /\ turns (ui w') = 1).

(** ** Concrete inputs *)

Module Demo.

(** A rendering of [datetime] values for the examples. *)
Definition clock (d : datetime) : string := "t" +:+ pretty d.

(** A run in which the user does nothing: no credential, a reachable
    store, no upload, no click, no query; the service is unreachable. *)
Definition idle : Env :=
  {| MISTRAL_API_KEY := None;
     mongo_ping := None;
     datetime_now := 0%Z;
     insert_one := Ok "65f0";
     find_error := None;
     radio := ExtractText;
     file_uploader := None;
     Image_open := fun file => Ok (decoded file);
     image_to_string := fun _ => Ok "Amoxicillin 500mg twice daily";
     button := fun _ => false;
     selectbox := fun _ => 0;
     chat_input := None;
     requests_post := fun _ => Raised (Exception "ConnectionError" "unreachable") |}.

Definition on_page (p : Page) (e : Env) : Env :=
  {| MISTRAL_API_KEY := MISTRAL_API_KEY e; mongo_ping := mongo_ping e;
     datetime_now := datetime_now e; insert_one := insert_one e;
     find_error := find_error e; radio := p;
     file_uploader := file_uploader e; Image_open := Image_open e;
     image_to_string := image_to_string e; button := button e;
     selectbox := selectbox e; chat_input := chat_input e;
     requests_post := requests_post e |}.

Definition asking (query : string) (e : Env) : Env :=
  {| MISTRAL_API_KEY := MISTRAL_API_KEY e; mongo_ping := mongo_ping e;
     datetime_now := datetime_now e; insert_one := insert_one e;
     find_error := find_error e; radio := radio e;
     file_uploader := file_uploader e; Image_open := Image_open e;
     image_to_string := image_to_string e; button := button e;
     selectbox := selectbox e; chat_input := Some query;
     requests_post := requests_post e |}.

Definition clicking (id : string) (e : Env) : Env :=
  {| MISTRAL_API_KEY := MISTRAL_API_KEY e; mongo_ping := mongo_ping e;
     datetime_now := datetime_now e; insert_one := insert_one e;
     find_error := find_error e; radio := radio e;
     file_uploader := file_uploader e; Image_open := Image_open e;
     image_to_string := image_to_string e;
     button := fun k => String.eqb k id || button e k;
     selectbox := selectbox e; chat_input := chat_input e;
     requests_post := requests_post e |}.

Definition choosing (index : nat) (e : Env) : Env :=
  {| MISTRAL_API_KEY := MISTRAL_API_KEY e; mongo_ping := mongo_ping e;
     datetime_now := datetime_now e; insert_one := insert_one e;
     find_error := find_error e; radio := radio e;
     file_uploader := file_uploader e; Image_open := Image_open e;
     image_to_string := image_to_string e; button := button e;
     selectbox := fun _ => index; chat_input := chat_input e;
     requests_post := requests_post e |}.

Definition uploading (file : UploadedFile) (ocr : result string) (e : Env) : Env :=
  {| MISTRAL_API_KEY := MISTRAL_API_KEY e; mongo_ping := mongo_ping e;
     datetime_now := datetime_now e; insert_one := insert_one e;
     find_error := find_error e; radio := radio e;
     file_uploader := Some file; Image_open := Image_open e;
     image_to_string := fun _ => ocr; button := button e;
     selectbox := selectbox e; chat_input := chat_input e;
     requests_post := requests_post e |}.

Definition store_down (e : Env) : Env :=
  {| MISTRAL_API_KEY := MISTRAL_API_KEY e;
     mongo_ping := Some (Exception "ServerSelectionTimeoutError" "connection refused");
     datetime_now := datetime_now e; insert_one := insert_one e;
     find_error := find_error e; radio := radio e;
     file_uploader := file_uploader e; Image_open := Image_open e;
     image_to_string := image_to_string e; button := button e;
     selectbox := selectbox e; chat_input := chat_input e;
     requests_post := requests_post e |}.

Definition insert_failing (e : Env) : Env :=
  {| MISTRAL_API_KEY := MISTRAL_API_KEY e; mongo_ping := mongo_ping e;
     datetime_now := datetime_now e;
     insert_one := Raised (Exception "WriteError" "not primary");
     find_error := find_error e; radio := radio e;
     file_uploader := file_uploader e; Image_open := Image_open e;
     image_to_string := image_to_string e; button := button e;
     selectbox := selectbox e; chat_input := chat_input e;
     requests_post := requests_post e |}.

Definition with_service (key : string) (reply : result Response) (e : Env) : Env :=
  {| MISTRAL_API_KEY := Some key; mongo_ping := mongo_ping e;
     datetime_now := datetime_now e; insert_one := insert_one e;
     find_error := find_error e; radio := radio e;
     file_uploader := file_uploader e; Image_open := Image_open e;
     image_to_string := image_to_string e; button := button e;
     selectbox := selectbox e; chat_input := chat_input e;
     requests_post := fun _ => reply |}.

Definition R1 : Prescription :=
  {| doc_id := "65f2"; extracted_text := "Ibuprofen 200mg"; upload_date := 20%Z |}.

Definition R2 : Prescription :=
  {| doc_id := "65f1"; extracted_text := "Amoxicillin 500mg"; upload_date := 10%Z |}.

(** A session: go to "Direct Chat", ask a question, then click
    "Clear Chat History". *)
Definition ask_then_clear : list Env :=
  [on_page DirectChat idle;
   asking "What is the dosage?" (on_page DirectChat idle);
   clicking clear_key (on_page DirectChat idle)].

(** The run in which a scan is uploaded, "Extract Text" is clicked and
    the OCR engine answers [ocr]. *)
Definition extracting (ocr : result string) : Env :=
  clicking "Extract Text" (uploading "scan.png" ocr idle).

(** A session: extract a prescription, click "Chat with this
    Prescription", then go back to "Extract Text". *)
Definition extract_then_back : list Env :=
  [clicking "chat_prescription_button"
     (extracting (Ok "Amoxicillin 500mg twice daily"));
   idle].

(** A session over a store with two records that ends on "Chat with
    Prescription Data" with an active prescription text. *)
Definition extract_then_chat : list Env :=
  [clicking "chat_prescription_button"
     (extracting (Ok "Amoxicillin 500mg twice daily"))].

(** Entering "Chat with Prescription Data"; the selector stays on its
    first option. *)
Definition enter_chat : Env := on_page ChatWithData idle.

(** What the OCR engine answers for a blank scan: a space, a line feed
    and a form feed. *)
Definition blank_scan_text : string :=
  " " +:+ PyStr.nl +:+ String "012"%char EmptyString.

(** Entering "Chat with Prescription Data" with the selector on its second
    option. *)
Definition second_chosen : Env := choosing 1 enter_chat.


(** An extraction while the store is down. *)
Definition scan_without_store : Env := store_down (extracting (Ok "Ibuprofen 200mg")).

(** The world after extracting a prescription and clicking "Chat with this
    Prescription", over a store with two records. *)
Definition with_active_text : World :=
  run_session clock extract_then_chat (initial [R2; R1]).

(** Entering "Chat with Prescription Data" while the store is down. *)
Definition enter_chat_without_store : Env := store_down enter_chat.

(** A click on "Clear Chat History" on the page "Direct Chat". *)
Definition clear_click : Env := clicking clear_key (on_page DirectChat idle).

(** The world after one question on "Direct Chat". *)
Definition after_one_turn : World :=
  run_session clock
    [on_page DirectChat idle;
     asking "What is the dosage?" (on_page DirectChat idle)] (initial []).

(** A question typed on the chat page while the store is down. *)
Definition ask_without_store : Env :=
  asking "What is the dosage?" (store_down (on_page ChatWithData idle)).

(** The world after entering "Chat with Prescription Data" over an empty
    store. *)
Definition on_chat_page : World := (run clock enter_chat (initial [])).2.

(** A click on "Submit to Database" while the store refuses the write. *)
Definition failed_persist : Env :=
  clicking "submit_to_db_button"
    (insert_failing (extracting (Ok "Ibuprofen 200mg"))).

End Demo.

(** ** Failures of the chat completion service *)

(** The service call for request [r] fails with [e]: the request itself
    fails, the status is not a success, the body is not JSON, or the path
    [choices[0].message.content] is missing from it. *)
Inductive service_fails (env : Env) (r : Request) (e : exn) : Prop :=
| network_error :
    requests_post env r = Raised e -> service_fails env r e
| error_status response :
    requests_post env r = Ok response ->
    status_error response = Some e -> service_fails env r e
| body_not_json response :
    requests_post env r = Ok response ->
    status_error response = None ->
    body response = Raised e -> service_fails env r e
| content_missing response parsed :
    requests_post env r = Ok response ->
    status_error response = None ->
    body response = Ok parsed ->
    completion_text parsed = Raised e -> service_fails env r e.

(** ** Recording the active prescription text *)

(** Lines 201-205 and 238-253: in this run the OCR call succeeded, its
    result [text] is a non-empty string, and "Chat with this Prescription"
    was clicked, which left [text] as the active prescription text and
    "Chat with Prescription Data" as the page. *)
Definition recorded (env : Env) (w' : World) : Prop :=
  exists file image raw text,
    file_uploader env = Some file
    /\ Image_open env file = Ok image
    /\ button env "Extract Text" = true
    /\ image_to_string env image = Ok raw
    /\ text = (if PyStr.truthy raw then PyStr.strip raw else "No text detected")
    /\ PyStr.truthy text = true
    /\ (button env "chat_prescription_button" = true
        \/ button env "chat_prescription_no_db_button" = true)
    /\ current_prescription (session_state w') = Some (Some text)
    /\ page (session_state w') = Some ChatWithData.

(** The page a run is on when the sidebar agrees with the session. *)
Definition current_page (w : World) : Page :=
  default ExtractText (page (session_state w)).

(** ** The page "Chat with Prescription Data", in closed form *)

(** The session state once the script has bound [current_prescription]. *)
Definition bound_session (s : SessionState) : SessionState :=
  {| page := page s; chat_history := chat_history s;
     current_prescription :=
       match current_prescription s with
       | None => Some None
       | bound => bound
       end |}.

Definition main_header : list UI :=
  [st_title "Medical Prescription Analyzer";
   st_write (JStr "Upload a handwritten medical prescription to extract text or chat directly");
   st_sidebar_title "Navigation";
   st_sidebar_radio "Go to" (map page_name [ExtractText; ChatWithData; DirectChat])].

(** What [get_db_connection] and line 190 render on the chat page. *)
Definition chat_connection_view (env : Env) : list UI :=
  match mongo_ping env with
  | None => [st_success "Database connection successful!"]
  | Some e =>
      [st_warning ("Database connection error: " +:+ exn_str e
                   +:+ ". Some features will be limited.");
       st_warning "Database connection failed. Some features may be limited."]
  end.

(** What [fetch_stored_prescriptions] renders. *)
Definition fetch_view (env : Env) : list UI :=
  match find_error env with
  | None => []
  | Some e => [st_error ("Error fetching prescriptions: " +:+ exn_str e)]
  end.

(** The world in which the chat page resolves [prescription_data]. *)
Definition chat_page_world (env : Env) (w : World) (extra : list UI) : World :=
  {| session_state := bound_session (session_state w);
     store := store w;
     ui := main_header ++ chat_connection_view env
           ++ [st_subheader "Chat with Prescription Data"] ++ extra;
     net := [] |}.

(** Lines 308-313 *)
Definition chat_with (env : Env) (data : option string) : M unit :=
  emit (st_expander "View Selected Prescription Data") >>
  emit (st_text_area "Prescription Data" data None) >>
  display_chat_interface env data.

(** Lines 184-190 on the chat page: the collection, if the store answers. *)
Definition chat_collection (env : Env) : option Collection :=
  match mongo_ping env with
  | None => Some extracted_texts
  | Some _ => None
  end.

(** Lines 297-306: the guidance of the page without data. *)
Definition no_data_view (env : Env) : list UI :=
  match mongo_ping env with
  | Some _ => [st_warning guidance_no_store]
  | None => fetch_view env ++ [st_info guidance_empty_store]
  end.

(** The value of the selector of line 281. *)
Definition selected_option (env : Env) (options : list string) : string :=
  default (default EmptyString (head options)) (options !! selectbox env options).

(** Lines 284-292: the data of the selected option. *)
Definition resolve (str_datetime : datetime -> string) (env : Env)
    (selected : string) (prescriptions : list Prescription) : M (option string) :=
  if String.eqb selected "All Prescriptions" then
    ret (Some (all_prescriptions prescriptions))
  else if String.eqb selected "Current Extracted Prescription" then
    read_current_prescription
  else stored_prescription selected prescriptions.

(** ** The page "Extract Text" after an extraction without text *)

(** The session state once the script has bound [current_prescription] and
    [main] has bound [page]. *)
Definition started_session (s : SessionState) : SessionState :=
  {| page := Some (default ExtractText (page s));
     chat_history := chat_history s;
     current_prescription :=
       match current_prescription s with
       | None => Some None
       | bound => bound
       end |}.

(** What [get_db_connection] renders on the page "Extract Text". *)
Definition extract_connection_view (env : Env) : list UI :=
  match mongo_ping env with
  | None => [st_success "Database connection successful!"]
  | Some e =>
      [st_warning ("Database connection error: " +:+ exn_str e
                   +:+ ". Some features will be limited.")]
  end.

(** Lines 194-203: what the page renders up to the OCR call. *)
Definition extraction_view : list UI :=
  [st_file_uploader "Choose an image..." ["jpg"; "png"; "jpeg"];
   st_image "Uploaded Prescription";
   st_button "Extract Text" None;
   st_spinner "Processing image..."].

(** ** Decimal numerals *)

(** Every character of [s] is a decimal digit. *)
Fixpoint digits_only (s : string) : bool :=
  match s with
  | EmptyString => true
  | String c s' =>
      match PyStr.digit c with
      | Some _ => digits_only s'
      | None => false
      end
  end.

(** The number a string of digits denotes, after the digits of [acc]. *)
Fixpoint numeral (acc : Z) (s : string) : Z :=
  match s with
  | EmptyString => acc
  | String c s' => numeral (10 * acc + default 0%Z (PyStr.digit c))%Z s'
  end.

(** No character of [s] is the space. *)
Fixpoint no_space (s : string) : bool :=
  match s with
  | EmptyString => true
  | String c s' => negb (Ascii.eqb c " ") && no_space s'
  end.

(** ** Exceptions that leave a run *)

(** [current_prescription] is bound, as the script leaves it. *)
Definition prescription_bound (w : World) : Prop :=
  current_prescription (session_state w) <> None.

(** A bound [current_prescription] stays bound. *)
Definition stays_bound : relation World :=
  fun w w' => prescription_bound w -> prescription_bound w'.



(** ** Writes to the store *)

(** The store is left as it was. *)
Definition same_store : relation World :=
  fun w w' => store w' = store w.

(** Lines 201-220: in this run the store answered, the OCR call succeeded
    with a non-empty result [text], "Submit to Database" was clicked and the
    insert succeeded, which appended one document holding [text] and the
    current time. *)
Definition persisted (env : Env) (w w' : World) : Prop :=
  exists file image raw text id,
    file_uploader env = Some file
    /\ Image_open env file = Ok image
    /\ button env "Extract Text" = true
    /\ image_to_string env image = Ok raw
    /\ text = (if PyStr.truthy raw then PyStr.strip raw else "No text detected")
    /\ PyStr.truthy text = true
    /\ button env "submit_to_db_button" = true
    /\ insert_one env = Ok id
    /\ store w' = store w ++ [{| doc_id := id; extracted_text := text;
                                 upload_date := datetime_now env |}].

(** ** Navigation *)

(** The page of the session is left as it was. *)
Definition same_navigation : relation World :=
  fun w w' => page (session_state w') = page (session_state w).

(** The session state after line 178 set the page to [p]. *)
Definition navigated (p : Page) (s : SessionState) : SessionState :=
  {| page := Some p;
     chat_history := chat_history s;
     current_prescription :=
       match current_prescription s with
       | None => Some None
       | bound => bound
       end |}.

(** ** The page "Extract Text", in closed form *)

(** Lines 210-255: the follow-on controls of a successful extraction, none
    of them clicked. *)
Definition follow_on_view (env : Env) : list UI :=
  match mongo_ping env with
  | None =>
      [st_columns 3;
       st_button "Submit to Database" (Some "submit_to_db_button");
       st_button "View Stored Prescriptions" (Some "view_prescriptions_button");
       st_button "Chat with this Prescription" (Some "chat_prescription_button")]
  | Some _ =>
      [st_button "Chat with this Prescription" (Some "chat_prescription_no_db_button");
       st_warning "Database connection failed. You can still chat with the prescription but it won't be saved."]
  end.

(** No follow-on control is clicked in this run. *)
Definition no_follow_on_click (env : Env) : Prop :=
  button env "submit_to_db_button" = false
  /\ button env "view_prescriptions_button" = false
  /\ button env "chat_prescription_button" = false
  /\ button env "chat_prescription_no_db_button" = false.

(** ** Surrounding whitespace *)

(** [s] does not start with whitespace. *)
Definition starts_clean (s : string) : bool :=
  match s with
  | EmptyString => true
  | String c _ => negb (PyStr.isspace c)
  end.

(** ** The transcript as shown *)

Definition role_of_name (name : string) : option Role :=
  if String.eqb name "user" then Some user
  else if String.eqb name "assistant" then Some assistant
  else None.

(** The chat messages a page shows, in order: each [st.chat_message]
    container of a user or an assistant with the [st.write] inside it. *)
Fixpoint shown_messages (page : list UI) : list ChatMessage :=
  match page with
  | [] => []
  | st_chat_message name :: rest =>
      match rest with
      | st_write body :: rest' =>
          match role_of_name name with
          | Some r => {| role := r; content := body |} :: shown_messages rest'
          | None => shown_messages rest'
          end
      | _ => shown_messages rest
      end
  | _ :: rest => shown_messages rest
  end.

(** ** The page "Direct Chat" *)

(** Lines 316-317 *)
Definition direct_view : list UI :=
  [st_subheader "Direct Chat with Medical Assistant";
   st_write (JStr "Chat directly with the medical assistant without any prescription data.")].

(** A message about the store, the OCR engine or missing data:
    [st.success], [st.info], [st.warning] or [st.error]. *)
Definition status_message (e : UI) : bool :=
  match e with
  | st_success _ | st_info _ | st_warning _ | st_error _ => true
  | _ => false
  end.

(** ** The listing of stored prescriptions *)

(** Lines 229-233: the entry of the stored record at position [idx]. *)
Definition listing_entry (str_datetime : datetime -> string)
    (entry : nat * Prescription) : list UI :=
  [st_write (JStr ("Prescription " +:+ PyStr.of_nat (entry.1 + 1) +:+ " - "
                   +:+ str_datetime (upload_date entry.2)));
   st_text_area ("Text " +:+ PyStr.of_nat (entry.1 + 1))
     (Some (extracted_text entry.2))
     (Some ("text_" +:+ PyStr.of_nat entry.1))].

(** The text a text area shows. *)
Definition text_area_value (e : UI) : option string :=
  match e with
  | st_text_area _ value _ => value
  | _ => None
  end.

(** The key a widget was given. *)
Definition widget_key (e : UI) : option string :=
  match e with
  | st_button _ key => key
  | st_text_area _ _ key => key
  | _ => None
  end.

(** ** A well-formed answer of the service *)

(** An answer with two choices and fields the code does not read. *)
Definition completion_response : Response :=
  {| status_error := None;
     body :=
       Ok (JObj [("id", JStr "cmpl-1");
                 ("choices",
                   JArr [JObj [("index", JInt 0);
                               ("message",
                                 JObj [("role", JStr "assistant");
                                       ("content", JStr "Twice daily.")])];
                         JObj [("index", JInt 1);
                               ("message",
                                 JObj [("role", JStr "assistant");
                                       ("content", JStr "Once daily.")])]]);
                 ("usage", JNull)]) |}.

(** A run with a credential in which the service gives this answer. *)
Definition answering : Env :=
  Demo.with_service "sk-test" (Ok completion_response) Demo.idle.
(** ** Structural rules for [keeps] *)

Section Keeps.

Context (R : relation World) `{!PreOrder R}.

Lemma keeps_ret {A} (a : A) : keeps R (ret a).
Proof. intros w. reflexivity. Qed.

Lemma keeps_leave {A} (x : Exit) : keeps R (@leave A x).
Proof. intros w. reflexivity. Qed.

Lemma keeps_gets {A} (f : World -> A) : keeps R (gets f).
Proof. intros w. reflexivity. Qed.

Lemma keeps_lift {A} (r : result A) : keeps R (lift r).
Proof. destruct r; intros w; reflexivity. Qed.

Lemma keeps_modify (f : World -> World) :
  (forall w, R w (f w)) -> keeps R (modify f).
Proof. intros H w. apply H. Qed.

Lemma keeps_bind {A B} (m : M A) (k : A -> M B) :
  keeps R m -> (forall a, keeps R (k a)) -> keeps R (bind m k).
Proof.
  intros Hm Hk w. unfold bind. specialize (Hm w).
  destruct (m w) as [[a|x] w']; simpl in *.
  - etransitivity; [exact Hm | apply Hk].
  - exact Hm.
Qed.

Lemma keeps_when (b : bool) (m : M unit) : keeps R m -> keeps R (when b m).
Proof. destruct b; simpl; auto using keeps_ret. Qed.

Lemma keeps_try_except {A} (m : M A) (h : exn -> M A) :
  keeps R m -> (forall e, keeps R (h e)) -> keeps R (try_except m h).
Proof.
  intros Hm Hh w. unfold try_except. specialize (Hm w).
  destruct (m w) as [[a|[| |e]] w']; simpl in *; try exact Hm.
  etransitivity; [exact Hm | apply Hh].
Qed.

Lemma keeps_call (m : M unit) : keeps R m -> keeps R (call m).
Proof.
  intros Hm w. unfold call. specialize (Hm w).
  destruct (m w) as [[a|[| |e]] w']; simpl in *; exact Hm.
Qed.

Lemma keeps_for_each {A} (l : list A) (f : A -> M unit) :
  (forall x, keeps R (f x)) -> keeps R (for_each l f).
Proof.
  intros Hf. induction l as [|x l IH]; simpl.
  - apply keeps_ret.
  - apply keeps_bind; auto.
Qed.

End Keeps.

Global Instance same_prescription_preorder : PreOrder same_prescription.
Proof.
  split; [intros w; reflexivity|].
  intros a b c H1 H2. unfold same_prescription in *. congruence.
Qed.

Global Instance ui_grows_preorder : PreOrder ui_grows.
Proof.
  split; [intros w; unfold ui_grows; reflexivity|].
  intros a b c H1 H2. unfold ui_grows in *. etransitivity; eauto.
Qed.

Global Instance chat_untouched_preorder : PreOrder chat_untouched.
Proof.
  split; [intros w; unfold chat_untouched; auto|].
  intros a b c (H1 & H2 & H3) (H4 & H5 & H6).
  unfold chat_untouched. repeat split; congruence.
Qed.

Lemma chat_widgets_app (l1 l2 : list UI) :
  chat_widgets (l1 ++ l2) = chat_widgets l1 ++ chat_widgets l2.
Proof. apply List.filter_app. Qed.

Lemma render_same_prescription e w : same_prescription w (render e w).
Proof. reflexivity. Qed.

Lemma render_ui_grows e w : ui_grows w (render e w).
Proof. unfold ui_grows. simpl. by apply prefix_app_r. Qed.

Lemma render_chat_untouched e w :
  chat_widget e = false -> chat_untouched w (render e w).
Proof.
  intros He. unfold chat_untouched. simpl. repeat split.
  rewrite chat_widgets_app. simpl. unfold chat_widgets at 2. simpl.
  rewrite He. by rewrite app_nil_r.
Qed.

Lemma stored_chat_untouched d w : chat_untouched w (stored d w).
Proof. by unfold chat_untouched. Qed.

Lemma stored_same_prescription d w : same_prescription w (stored d w).
Proof. reflexivity. Qed.

Lemma sent_same_prescription r w : same_prescription w (sent r w).
Proof. reflexivity. Qed.

Lemma sent_ui_grows r w : ui_grows w (sent r w).
Proof. unfold ui_grows. reflexivity. Qed.

Lemma set_history_same_prescription h w :
  same_prescription w (with_session (set_chat_history h) w).
Proof. reflexivity. Qed.

Lemma set_history_ui_grows h w : ui_grows w (with_session (set_chat_history h) w).
Proof. unfold ui_grows. reflexivity. Qed.

Lemma set_page_same_prescription p w :
  same_prescription w (with_session (set_page p) w).
Proof. reflexivity. Qed.

Lemma set_page_chat_untouched p w : chat_untouched w (with_session (set_page p) w).
Proof. by unfold chat_untouched. Qed.

Lemma set_prescription_chat_untouched v w :
  chat_untouched w (with_session (set_current_prescription v) w).
Proof. by unfold chat_untouched. Qed.

Create HintDb frame discriminated.
#[export] Hint Resolve render_same_prescription render_ui_grows
  stored_chat_untouched stored_same_prescription sent_same_prescription
  sent_ui_grows set_history_same_prescription set_history_ui_grows
  set_page_same_prescription set_page_chat_untouched
  set_prescription_chat_untouched : frame.

(** One structural step of a [keeps] proof. *)
Ltac keeps_step :=
  lazymatch goal with
  | |- keeps _ (bind _ _) => apply keeps_bind; [try apply _ | | intros ?]
  | |- keeps _ (ret _) => apply keeps_ret; apply _
  | |- keeps _ (leave _) => apply keeps_leave; apply _
  | |- keeps _ st_rerun => apply keeps_leave; apply _
  | |- keeps _ (gets _) => apply keeps_gets; apply _
  | |- keeps _ (lift _) => apply keeps_lift; apply _
  | |- keeps _ (when _ _) => apply keeps_when; [try apply _ |]
  | |- keeps _ (for_each _ _) => apply keeps_for_each; [try apply _ | intros ?]
  | |- keeps _ (try_except _ _) => apply keeps_try_except; [try apply _ | | intros ?]
  | |- keeps _ (call _) => apply keeps_call
  | |- keeps chat_untouched (emit _) =>
      apply keeps_modify; intros ?; apply render_chat_untouched; reflexivity
  | |- keeps _ (emit _) => apply keeps_modify; intros ?; auto with frame
  | |- keeps _ (modify _) => apply keeps_modify; intros ?; auto with frame
  | |- keeps _ (match ?x with _ => _ end) => destruct x
  end.

Ltac keeps_tac := repeat keeps_step.

Create HintDb app_defs discriminated.
#[export] Hint Unfold button_ selectbox_ read_chat_history append_message
  read_current_prescription read_page get_db_connection
  extract_text_from_image save_to_database fetch_stored_prescriptions post
  raise_for_status query_mistral_api_try query_mistral_api
  chat_with_this_prescription submit_to_database view_stored_prescriptions
  main_extract_text connect_if_needed display_chat_interface
  stored_prescription main_direct_chat : app_defs.

Ltac unfold_app := progress (autounfold with app_defs).

Ltac frame := repeat (keeps_step || unfold_app).

(** ** What each part of the script leaves untouched *)

Section Frames.

Variable str_datetime : datetime -> string.
Variable env : Env.

Lemma query_keeps_prescription prompt data :
  keeps same_prescription (query_mistral_api env prompt data).
Proof. frame. Qed.

Lemma query_ui_grows prompt data :
  keeps ui_grows (query_mistral_api env prompt data).
Proof. frame. Qed.

Lemma display_keeps_prescription data :
  keeps same_prescription (display_chat_interface env data).
Proof. frame. Qed.

Lemma display_ui_grows data :
  keeps ui_grows (display_chat_interface env data).
Proof. frame. Qed.

Lemma connect_keeps_prescription p :
  keeps same_prescription (connect_if_needed env p).
Proof. frame. Qed.

Lemma connect_chat_untouched p :
  keeps chat_untouched (connect_if_needed env p).
Proof. frame. Qed.

Lemma extract_page_chat_untouched collection :
  keeps chat_untouched (main_extract_text str_datetime env collection).
Proof. frame. Qed.

End Frames.

(** ** The chat completion call, in closed form *)

Section CompletionFacts.

Variable env : Env.

Lemma sends_nil (w : World) : sends [] w = w.
Proof. destruct w. unfold sends. simpl. by rewrite app_nil_r. Qed.

Lemma query_mistral_api_eq prompt data w :
  query_mistral_api env prompt data w
  = (inl (answer env prompt data), sends (requests env prompt data) w).
Proof.
  unfold query_mistral_api, query_mistral_api_try, answer, requests,
    credential, try_except.
  destruct (MISTRAL_API_KEY env) as [key|]; simpl;
    [destruct (PyStr.truthy key); simpl|]; rewrite ?sends_nil; try done.
  unfold post, bind, modify, lift, service_call, raise_for_status. simpl.
  destruct (requests_post env _) as [response|e]; simpl; [|done].
  destruct (status_error response) as [e|]; simpl; [done|].
  destruct (body response) as [result|e]; simpl; [|done].
  unfold completion_text.
  destruct (Py.getitem_str result "choices") as [choices|e]; simpl; [|done].
  destruct (Py.getitem_int choices 0) as [choice|e]; simpl; [|done].
  destruct (Py.getitem_str choice "message") as [message|e]; simpl; [|done].
  destruct (Py.getitem_str message "content") as [text|e]; simpl; done.
Qed.

End CompletionFacts.

(** ** The chat panel, in closed form *)

Lemma world_eq (w w' : World) :
  session_state w = session_state w' -> store w = store w' ->
  ui w = ui w' -> net w = net w' -> w = w'.
Proof. destruct w, w'. simpl. by intros -> -> -> ->. Qed.

Lemma for_each_renders {A} (g : A -> list UI) (f : A -> M unit)
    (l : list A) (w : World) :
  (forall x w', f x w' = (inl tt, renders (g x) w')) ->
  for_each l f w = (inl tt, renders (flat_map g l) w).
Proof.
  intros Hf. revert w. induction l as [|x l IH]; intros w; simpl.
  - f_equal. apply world_eq; simpl; try done. by rewrite app_nil_r.
  - unfold bind at 1. rewrite Hf, IH. f_equal.
    apply world_eq; simpl; try done. by rewrite <- !app_assoc.
Qed.

Lemma for_each_transcript (h : list ChatMessage) (w : World) :
  for_each h (fun message =>
    emit (st_chat_message (role_name (role message))) >>
    emit (st_write (content message))) w
  = (inl tt, renders (transcript_view h) w).
Proof.
  apply (for_each_renders
           (fun message => [st_chat_message (role_name (role message));
                            st_write (content message)])).
  intros message w'. unfold bind, emit, modify, renders, render. simpl.
  f_equal. apply world_eq; simpl; try done. by rewrite <- app_assoc.
Qed.

(** Running a sequence step by step. *)

Lemma bind_value {A B} (m : M A) (k : A -> M B) w a w' :
  m w = (inl a, w') -> bind m k w = k a w'.
Proof. intros H. unfold bind. by rewrite H. Qed.

Lemma bind_exit {A B} (m : M A) (k : A -> M B) w x w' :
  m w = (inr x, w') -> bind m k w = (inr x, w').
Proof. intros H. unfold bind. by rewrite H. Qed.

Lemma bind_assoc {A B C} (m : M A) (k : A -> M B) (k' : B -> M C) w :
  bind (bind m k) k' w = bind m (fun a => bind (k a) k') w.
Proof. unfold bind. by destruct (m w) as [[a|x] w']. Qed.

Lemma bind_emit {B} e (k : unit -> M B) w : bind (emit e) k w = k tt (render e w).
Proof. reflexivity. Qed.

Lemma bind_modify {B} f (k : unit -> M B) w : bind (modify f) k w = k tt (f w).
Proof. reflexivity. Qed.

Lemma bind_gets {A B} (f : World -> A) (k : A -> M B) w :
  bind (gets f) k w = k (f w) w.
Proof. reflexivity. Qed.

Lemma bind_ret {A B} (a : A) (k : A -> M B) w : bind (ret a) k w = k a w.
Proof. reflexivity. Qed.

Lemma bind_leave {A B} x (k : A -> M B) w : bind (leave x) k w = (inr x, w).
Proof. reflexivity. Qed.

Lemma emit_run e w : emit e w = (inl tt, render e w).
Proof. reflexivity. Qed.

Lemma modify_run f w : modify f w = (inl tt, f w).
Proof. reflexivity. Qed.

Lemma ret_run {A} (a : A) w : ret a w = (inl a, w).
Proof. reflexivity. Qed.

Lemma leave_run {A} x w : @leave A x w = (inr x, w).
Proof. reflexivity. Qed.

Arguments bind : simpl never.
Arguments emit : simpl never.
Arguments modify : simpl never.
Arguments gets : simpl never.
Arguments ret : simpl never.
Arguments leave : simpl never.
Arguments for_each : simpl never.
Arguments answer : simpl never.
Arguments requests : simpl never.
Arguments transcript_view : simpl never.
Arguments connect_if_needed : simpl never.

Create HintDb state_defs discriminated.
#[export] Hint Unfold read_chat_history append_message
  read_current_prescription read_page button_ selectbox_ st_rerun : state_defs.

(** Worlds are kept in normal form: a record of the four components. *)
Ltac norm_world :=
  cbn [render renders sends stored with_session set_chat_history set_page
       set_current_prescription session_state store ui net page chat_history
       current_prescription].

Ltac run_det_step :=
  first
    [ rewrite bind_assoc
    | rewrite bind_emit
    | rewrite bind_modify
    | rewrite bind_gets
    | rewrite bind_ret
    | rewrite bind_leave
    | rewrite emit_run
    | rewrite modify_run
    | rewrite ret_run
    | rewrite leave_run
    | erewrite bind_value by apply for_each_transcript
    | erewrite bind_value by apply query_mistral_api_eq
    | progress simpl
    | progress (autounfold with state_defs) ];
  norm_world.

Ltac run_split :=
  match goal with
  | |- context [bind (if ?b then _ else _) _ _] => destruct b eqn:?
  | |- context [bind (match ?x with _ => _ end) _ _] => destruct x eqn:?
  | |- context [bind (when ?b _) _ _] => destruct b eqn:?
  | |- context [when ?b _ _] => destruct b eqn:?
  end;
  norm_world.

(** Deterministic steps only. *)
Ltac run_det := repeat run_det_step.

Ltac run_step := first [run_det_step | run_split].

Ltac run_steps := repeat run_step.

Section PanelFacts.

Variable env : Env.

Lemma display_chat_interface_eq data w :
  display_chat_interface env data w
  = (panel_exit env data w, after_panel env data w).
Proof.
  unfold display_chat_interface, panel_exit, after_panel, panel_view,
    turn_messages, turn_view, turn_requests, submitted, history.
  destruct w as [[pg ch cp] st u n]. simpl.
  destruct ch as [h|]; simpl; run_steps.
  all: try (destruct h; simpl; run_steps).
  all: try (destruct (button env clear_key) eqn:?; simpl; run_steps).
  all: cbn [clear_clicked clear_view app]; f_equal; apply world_eq; norm_world.
  all: unfold transcript_view; cbn [app flat_map].
  all: rewrite <- ?app_assoc; cbn [app]; rewrite ?app_nil_r.
  all: reflexivity.
Qed.

End PanelFacts.

(** ** What one run does to the transcript *)

Lemma filter_filter_implied {A} (p q : A -> bool) (l : list A) :
  (forall x, p x = true -> q x = true) ->
  List.filter p (List.filter q l) = List.filter p l.
Proof.
  intros Hpq. induction l as [|x l IH]; simpl; [done|].
  destruct (q x) eqn:Hq; simpl.
  - by rewrite IH.
  - destruct (p x) eqn:Hp; [|done]. apply Hpq in Hp. congruence.
Qed.

Lemma turns_chat_widgets (l : list UI) :
  turns l = length (List.filter is_thinking (chat_widgets l)).
Proof.
  unfold turns, chat_widgets. rewrite filter_filter_implied; [done|].
  intros x Hx. unfold chat_widget. by rewrite Hx.
Qed.

Lemma existsb_filter_implied {A} (p q : A -> bool) (l : list A) :
  (forall x, p x = true -> q x = true) ->
  existsb p (List.filter q l) = existsb p l.
Proof.
  intros Hpq. induction l as [|x l IH]; simpl; [done|].
  destruct (q x) eqn:Hq; simpl.
  - by rewrite IH.
  - destruct (p x) eqn:Hp; [|done]. apply Hpq in Hp. congruence.
Qed.

Lemma clear_offered_chat_widgets (l : list UI) :
  existsb is_clear_button l = existsb is_clear_button (chat_widgets l).
Proof.
  unfold chat_widgets. rewrite existsb_filter_implied; [done|].
  intros x Hx. unfold chat_widget. rewrite Hx. by destruct (is_thinking x).
Qed.

Lemma chat_widgets_transcript (h : list ChatMessage) :
  chat_widgets (transcript_view h) = [].
Proof. induction h as [|m h IH]; simpl; done. Qed.

Section RunFacts.

Variable str_datetime : datetime -> string.
Variable env : Env.

Lemma panel_or_not_keeps {A} (m : M A) :
  keeps chat_untouched m -> panel_or_not env m.
Proof. intros H w. left. apply H. Qed.

Lemma panel_or_not_bind {A B} (m : M A) (k : A -> M B) :
  keeps chat_untouched m -> (forall a, panel_or_not env (k a)) ->
  panel_or_not env (bind m k).
Proof.
  intros Hm Hk w. unfold bind. specialize (Hm w).
  destruct (m w) as [[a|x] w1]; simpl in *; [|by left].
  destruct (Hk a w1) as [H|(data & w_mid & H1 & H2)].
  - left. by etransitivity.
  - right. exists data, w_mid. split; [by etransitivity | done].
Qed.

Lemma panel_or_not_call (m : M unit) :
  panel_or_not env m -> panel_or_not env (call m).
Proof.
  intros Hm w. unfold call. specialize (Hm w).
  by destruct (m w) as [[a|[| |e]] w1].
Qed.

Lemma panel_or_not_display data :
  panel_or_not env (display_chat_interface env data).
Proof.
  intros w. right. exists data, w. split; [reflexivity|].
  by rewrite display_chat_interface_eq.
Qed.

Ltac panel_step :=
  lazymatch goal with
  | |- panel_or_not _ (display_chat_interface _ _) => apply panel_or_not_display
  | |- panel_or_not _ (call _) => apply panel_or_not_call
  | |- panel_or_not _ (main_extract_text _ _ _) =>
      apply panel_or_not_keeps, extract_page_chat_untouched
  | |- panel_or_not _ (bind _ _) =>
      apply panel_or_not_bind; [solve [frame] | intros ?]
  | |- panel_or_not _ (match ?x with _ => _ end) => destruct x
  end.

Lemma script_panel_or_not : panel_or_not env (script str_datetime env).
Proof.
  unfold script, main, main_body, main_chat_with_data, main_direct_chat.
  repeat panel_step.
Qed.

Lemma turns_panel data h :
  turns (panel_view env data h)
  = match submitted env with Some _ => 1 | None => 0 end.
Proof.
  unfold turns, panel_view, turn_view, clear_view.
  rewrite !List.filter_app. simpl.
  assert (List.filter is_thinking (transcript_view h) = []) as ->.
  { induction h as [|m h IH]; simpl; done. }
  destruct (submitted env); simpl;
    destruct (h ++ turn_messages env data); simpl; done.
Qed.

Lemma clear_offered_panel data h :
  existsb is_clear_button (panel_view env data h) && button env clear_key
  = clear_clicked env (h ++ turn_messages env data).
Proof.
  unfold panel_view, turn_view, clear_view, clear_clicked.
  rewrite !existsb_app. simpl.
  assert (existsb is_clear_button (transcript_view h) = false) as ->.
  { induction h as [|m h IH]; simpl; done. }
  destruct (submitted env); simpl;
    destruct (h ++ turn_messages env data); simpl; done.
Qed.

Lemma untouched_history w w' : chat_untouched w w' -> history w' = history w.
Proof. intros (H & _). unfold history. by rewrite H. Qed.

Lemma untouched_turns w w' : chat_untouched w w' -> turns (ui w') = turns (ui w).
Proof. intros (_ & _ & H). by rewrite !turns_chat_widgets, H. Qed.

Lemma untouched_clear_offered w w' :
  chat_untouched w w' ->
  existsb is_clear_button (ui w') = existsb is_clear_button (ui w).
Proof.
  intros (_ & _ & H).
  by rewrite (clear_offered_chat_widgets (ui w')), H, <- clear_offered_chat_widgets.
Qed.

Lemma turns_app (l1 l2 : list UI) : turns (l1 ++ l2) = turns l1 + turns l2.
Proof. unfold turns. by rewrite List.filter_app, length_app. Qed.

(** One run processes no turn or one turn; the transcript is emptied
    exactly when the clear control was rendered and clicked. *)
Lemma run_chat_step w : chat_step env w (run str_datetime env w).2.
Proof.
  unfold run.
  destruct (script_panel_or_not (fresh w)) as [H|(data & w_mid & H & ->)].
  - exists []. unfold cleared.
    rewrite (untouched_clear_offered _ _ H), (untouched_history _ _ H),
      (untouched_turns _ _ H). simpl. rewrite app_nil_r.
    split; [done|]. left. by destruct H as (_ & -> & _).
  - pose proof (untouched_history _ _ H) as Hh.
    pose proof (untouched_turns _ _ H) as Ht.
    pose proof (untouched_clear_offered _ _ H) as Hc.
    destruct H as (_ & Hn & _). simpl in *.
    exists (turn_messages env data).
    unfold cleared, after_panel. cbn [ui net].
    rewrite existsb_app, Hc, turns_app, Ht, Hn. cbn [orb app].
    change (turns []) with 0. rewrite Nat.add_0_l.
    rewrite clear_offered_panel, turns_panel, Hh.
    change (history (fresh w)) with (history w).
    split.
    + unfold history at 1. simpl.
      by destruct (clear_clicked env (history w ++ turn_messages env data)).
    + unfold turn_messages, turn_requests, submitted.
      destruct (chat_input env) as [q|] eqn:Hq; [|by left].
      destruct (PyStr.truthy q) eqn:Hq'; [|by left].
      right. by exists q, data.
Qed.

End RunFacts.

(** ** The transcript over a session *)

Lemma alternation_app (n m : nat) :
  alternation (n + m) = alternation n ++ alternation m.
Proof. induction n as [|n IH]; simpl; [done|]. by rewrite IH. Qed.

Lemma alternation_length (n : nat) : length (alternation n) = 2 * n.
Proof. induction n as [|n IH]; simpl; [done|]. rewrite IH. lia. Qed.

Section SessionFacts.

Variable str_datetime : datetime -> string.

Lemma run_alternation env w n :
  map role (history w) = alternation n ->
  let w' := (run str_datetime env w).2 in
  map role (history w')
  = alternation (if cleared env (ui w') then 0 else n + turns (ui w')).
Proof.
  intros Hn w'. subst w'.
  destruct (run_chat_step str_datetime env w) as (msgs & Hh & Hm).
  rewrite Hh. destruct (cleared env _); [done|].
  rewrite map_app, Hn, alternation_app. f_equal.
  destruct Hm as [(-> & _ & ->)|(q & data & _ & _ & -> & _ & ->)]; done.
Qed.

Lemma session_alternation envs w n :
  map role (history w) = alternation n ->
  map role (history (run_session str_datetime envs w))
  = alternation (turns_since_clear str_datetime n envs w).
Proof.
  revert w n. induction envs as [|env envs IH]; intros w n Hn; simpl; [done|].
  apply IH. by apply run_alternation.
Qed.

End SessionFacts.

(** C1, as amended: in every session the transcript holds exactly two
    messages, a user message followed by an assistant message, for each chat
    turn completed since the session started or since the transcript was
    last cleared, whether the completion calls succeeded or not. *)
Theorem chat_history_two_per_turn_since_clear
    (str_datetime : datetime -> string) (envs : list Env)
    (docs : list Prescription) :
  let w := run_session str_datetime envs (initial docs) in
  let n := turns_since_clear str_datetime 0 envs (initial docs) in
  length (history w) = 2 * n /\ map role (history w) = alternation n.
Proof.
  intros w n.
  assert (map role (history w) = alternation n) as H.
  { by apply session_alternation. }
  split; [|done].
  by rewrite <- (length_map role), H, alternation_length.
Qed.

(** C1, as stated, fails: after one completed turn and a click on "Clear
    Chat History" the transcript is empty, not of length two. *)
Lemma chat_history_cleared_after_turn :
  completed_turns Demo.clock Demo.ask_then_clear (initial []) = 1
  /\ length (history (run_session Demo.clock Demo.ask_then_clear (initial []))) = 0.
Proof. split; vm_compute; reflexivity. Qed.

(** ** Chat turns *)

Section TurnFacts.

Variable env : Env.

Lemma credential_absent :
  PyStr.truthy_opt (MISTRAL_API_KEY env) = false -> credential env = None.
Proof.
  unfold credential. destruct (MISTRAL_API_KEY env) as [key|]; simpl; [|done].
  by intros ->.
Qed.

Lemma service_fails_call r e :
  service_fails env r e -> service_call env r = Raised e.
Proof.
  unfold service_call.
  intros [H|resp H1 H2|resp H1 H2 H3|resp parsed H1 H2 H3 H4].
  - by rewrite H.
  - by rewrite H1, H2.
  - by rewrite H1, H2, H3.
  - by rewrite H1, H2, H3.
Qed.

(** A processed query, when the clear control is not clicked: both
    messages are appended and the call returns. *)
Lemma display_turn data w query :
  chat_input env = Some query -> PyStr.truthy query = true ->
  button env clear_key = false ->
  exists w',
    display_chat_interface env data w = (inl tt, w')
    /\ history w'
       = history w ++ [{| role := user; content := JStr query |};
                       {| role := assistant; content := answer env query data |}]
    /\ net w' = net w ++ requests env query data
    /\ turns (ui w') = turns (ui w) + 1.
Proof.
  intros Hq Ht Hb. rewrite display_chat_interface_eq.
  assert (submitted env = Some query) as Hs.
  { unfold submitted. by rewrite Hq, Ht. }
  assert (forall h, clear_clicked env h = false) as Hc.
  { intros [|m h]; simpl; done. }
  exists (after_panel env data w). unfold panel_exit. rewrite Hc.
  split; [done|]. unfold after_panel. simpl. rewrite Hc.
  unfold turn_messages, turn_requests. rewrite Hs.
  repeat split. rewrite turns_app, turns_panel. by rewrite Hs.
Qed.

End TurnFacts.

(** C3: without a credential [query_mistral_api] answers the literal
    configured error string and sends no request; a chat turn then appends
    the user message and that string as the assistant message, and in every
    run no request is sent while each processed turn leaves exactly this
    pair at the end of the transcript. *)
Theorem absent_credential_turn
    (str_datetime : datetime -> string) (env : Env) :
  PyStr.truthy_opt (MISTRAL_API_KEY env) = false ->
  (forall prompt data w,
     query_mistral_api env prompt data w = (inl (JStr no_api_key), w))
  /\ (forall data w query,
        chat_input env = Some query -> PyStr.truthy query = true ->
        button env clear_key = false ->
        exists w',
          display_chat_interface env data w = (inl tt, w')
          /\ history w'
             = history w ++ [{| role := user; content := JStr query |};
                             {| role := assistant; content := JStr no_api_key |}]
          /\ net w' = net w
          /\ turns (ui w') = turns (ui w) + 1)
  /\ (forall w,
        let w' := (run str_datetime env w).2 in
        net w' = []
        /\ (turns (ui w') = 1 -> cleared env (ui w') = false ->
            exists query,
              chat_input env = Some query
              /\ history w'
                 = history w ++ [{| role := user; content := JStr query |};
                                 {| role := assistant; content := JStr no_api_key |}])).
Proof.
  intros Hkey. apply credential_absent in Hkey.
  assert (forall prompt data, answer env prompt data = JStr no_api_key) as Ha.
  { intros. unfold answer. by rewrite Hkey. }
  assert (forall prompt data, requests env prompt data = []) as Hr.
  { intros. unfold requests. by rewrite Hkey. }
  split; [|split].
  - intros prompt data w. by rewrite query_mistral_api_eq, Ha, Hr, sends_nil.
  - intros data w query Hq Ht Hb.
    destruct (display_turn env data w query Hq Ht Hb) as (w' & H1 & H2 & H3 & H4).
    exists w'. rewrite Ha in H2. rewrite Hr, app_nil_r in H3. done.
  - intros w w'. subst w'.
    destruct (run_chat_step str_datetime env w) as (msgs & Hh & Hm).
    destruct Hm as [(-> & Hn & Ht)|(q & data & Hq & _ & -> & Hn & Ht)].
    + split; [done|]. rewrite Ht. discriminate.
    + rewrite Hr in Hn. split; [done|].
      intros _ Hc. rewrite Hc, Ha in Hh. by exists q.
Qed.

Lemma absent_credential_turn_witness :
  exists w',
    display_chat_interface (Demo.asking "What is the dosage?" Demo.idle)
      None (initial []) = (inl tt, w')
    /\ history w'
       = [{| role := user; content := JStr "What is the dosage?" |};
          {| role := assistant; content := JStr no_api_key |}]
    /\ net w' = []
    /\ turns (ui w') = 1.
Proof.
  destruct (absent_credential_turn Demo.clock
              (Demo.asking "What is the dosage?" Demo.idle) eq_refl)
    as (_ & H & _).
  exact (H None (initial []) "What is the dosage?" eq_refl eq_refl eq_refl).
Defined.

(** C4: when the service call fails (network error, error status,
    undecodable body, or a body without [choices[0].message.content]),
    [query_mistral_api] raises nothing: it returns the literal error string
    describing the failure, and the chat turn appends that string as the
    assistant message. *)
Theorem service_failure_is_the_reply
    (env : Env) (key prompt : string) (data : option string) (e : exn) :
  credential env = Some key ->
  service_fails env (completion_request key prompt data) e ->
  (forall w,
     query_mistral_api env prompt data w
     = (inl (JStr ("Error querying Mistral API: " +:+ exn_str e)),
        sends [completion_request key prompt data] w))
  /\ (forall w,
        chat_input env = Some prompt -> PyStr.truthy prompt = true ->
        button env clear_key = false ->
        exists w',
          display_chat_interface env data w = (inl tt, w')
          /\ history w'
             = history w
               ++ [{| role := user; content := JStr prompt |};
                   {| role := assistant;
                      content := JStr ("Error querying Mistral API: " +:+ exn_str e) |}]).
Proof.
  intros Hkey Hfail. apply service_fails_call in Hfail.
  assert (answer env prompt data
          = JStr ("Error querying Mistral API: " +:+ exn_str e)) as Ha.
  { unfold answer. by rewrite Hkey, Hfail. }
  split.
  - intros w. rewrite query_mistral_api_eq, Ha. unfold requests. by rewrite Hkey.
  - intros w Hq Ht Hb.
    destruct (display_turn env data w prompt Hq Ht Hb) as (w' & H1 & H2 & _).
    exists w'. by rewrite Ha in H2.
Qed.

Lemma service_failure_is_the_reply_witness :
  query_mistral_api
    (Demo.with_service "sk-1" (Ok {| status_error := None; body := Ok (JObj []) |})
       Demo.idle)
    "What is the dosage?" None (initial [])
  = (inl (JStr "Error querying Mistral API: 'choices'"),
     sends [completion_request "sk-1" "What is the dosage?" None] (initial [])).
Proof.
  refine (proj1 (service_failure_is_the_reply
    (Demo.with_service "sk-1" (Ok {| status_error := None; body := Ok (JObj []) |})
       Demo.idle)
    "sk-1" "What is the dosage?" None (Py.KeyError "'choices'") eq_refl _)
    (initial [])).
  by eapply content_missing.
Defined.

(** ** Clearing the transcript *)

(** C9: clearing is idempotent and never automatic.  A run without a new
    query leaves an empty transcript empty, whatever is clicked; after a
    click on the rendered clear control the transcript is empty and a
    further run without a query, clicking again or not, leaves it as it is;
    and a run in which the rendered clear control is not clicked removes
    nothing from the transcript. *)
Theorem clear_chat_idempotent (str_datetime : datetime -> string) :
  (forall env w,
     history w = [] -> submitted env = None ->
     history (run str_datetime env w).2 = [])
  /\ (forall env1 env2 w,
        cleared env1 (ui (run str_datetime env1 w).2) = true ->
        submitted env2 = None ->
        history (run str_datetime env1 w).2 = []
        /\ history (run str_datetime env2 (run str_datetime env1 w).2).2
           = history (run str_datetime env1 w).2)
  /\ (forall env w,
        cleared env (ui (run str_datetime env w).2) = false ->
        history w `prefix_of` history (run str_datetime env w).2).
Proof.
  assert (forall env w,
            history w = [] -> submitted env = None ->
            history (run str_datetime env w).2 = []) as Hempty.
  { intros env w Hw Hs.
    destruct (run_chat_step str_datetime env w) as (msgs & Hh & Hm).
    rewrite Hh, Hw. destruct (cleared env _); [done|].
    destruct Hm as [(-> & _)|(q & data & Hq & Ht & _)]; [done|].
    unfold submitted in Hs. by rewrite Hq, Ht in Hs. }
  split; [exact Hempty|split].
  - intros env1 env2 w Hc Hs.
    assert (history (run str_datetime env1 w).2 = []) as H1.
    { destruct (run_chat_step str_datetime env1 w) as (msgs & Hh & _).
      by rewrite Hh, Hc. }
    split; [done|]. rewrite H1. by apply Hempty.
  - intros env w Hc.
    destruct (run_chat_step str_datetime env w) as (msgs & Hh & _).
    rewrite Hh, Hc. by apply prefix_app_r.
Qed.

Lemma clear_chat_idempotent_witness :
  history (run Demo.clock Demo.clear_click Demo.after_one_turn).2 = []
  /\ history (run Demo.clock Demo.clear_click
               (run Demo.clock Demo.clear_click Demo.after_one_turn).2).2
     = history (run Demo.clock Demo.clear_click Demo.after_one_turn).2.
Proof.
  exact (proj1 (proj2 (clear_chat_idempotent Demo.clock))
           Demo.clear_click Demo.clear_click Demo.after_one_turn
           eq_refl eq_refl).
Defined.

(** ** The active prescription text *)

Lemma bind_total {A B} (m : M A) (k : A -> M B) w a :
  (m w).1 = inl a -> bind m k w = k a (m w).2.
Proof. unfold bind. destruct (m w) as [[a'|x] w']; simpl; congruence. Qed.

Lemma for_each_returns {A} (l : list A) (f : A -> M unit) :
  (forall x w, (f x w).1 = inl tt) -> forall w, (for_each l f w).1 = inl tt.
Proof.
  intros Hf. induction l as [|x l IH]; intros w; [done|].
  change (for_each (x :: l) f) with (f x >> for_each l f).
  rewrite (bind_total _ _ _ tt) by apply Hf. apply IH.
Qed.

Section PrescriptionFacts.

Variable str_datetime : datetime -> string.
Variable env : Env.

Lemma submit_returns text c w : (submit_to_database env text c w).1 = inl tt.
Proof.
  unfold submit_to_database, save_to_database. run_steps.
  all: try done.
  all: destruct (insert_one env); run_steps; done.
Qed.

Lemma view_returns c w :
  (view_stored_prescriptions str_datetime env c w).1 = inl tt.
Proof.
  unfold view_stored_prescriptions, fetch_stored_prescriptions. run_steps.
  all: try done.
  destruct (find_sorted (store w)); run_steps; [done|].
  apply for_each_returns; by intros [idx prescription] w'.
Qed.

Lemma submit_keeps_prescription text c :
  keeps same_prescription (submit_to_database env text c).
Proof. frame. Qed.

Lemma view_keeps_prescription c :
  keeps same_prescription (view_stored_prescriptions str_datetime env c).
Proof. frame. Qed.

Lemma chat_page_keeps_prescription c :
  keeps same_prescription (main_chat_with_data str_datetime env c).
Proof. unfold main_chat_with_data. frame. Qed.

Lemma direct_page_keeps_prescription :
  keeps same_prescription (main_direct_chat env).
Proof. frame. Qed.

Lemma extract_page_prescription c w :
  let w' := (main_extract_text str_datetime env c w).2 in
  same_prescription w w' \/ recorded env w'.
Proof.
  unfold main_extract_text, extract_text_from_image,
    chat_with_this_prescription.
  run_det.
  destruct (file_uploader env) as [file|] eqn:Hfile; [|by left].
  destruct (Image_open env file) as [image|e] eqn:Himage; run_det; [|by left].
  destruct (button env "Extract Text") eqn:Hclick; run_det; [|by left].
  destruct (image_to_string env image) as [raw|e] eqn:Hraw; run_det;
    [|by left].
  set (text := if PyStr.truthy raw then PyStr.strip raw else "No text detected").
  destruct (PyStr.truthy text) eqn:Htext; run_det; [|by left].
  destruct c as [c|]; run_det.
  - rewrite (bind_total _ _ _ tt) by apply submit_returns.
    rewrite (bind_total _ _ _ tt) by apply view_returns.
    run_det.
    destruct (button env "chat_prescription_button") eqn:Hchat; run_det.
    + right. exists file, image, raw, text. repeat split; auto.
    + left. simpl.
      etransitivity; [|apply view_keeps_prescription].
      etransitivity; [|apply submit_keeps_prescription].
      reflexivity.
  - destruct (button env "chat_prescription_no_db_button") eqn:Hchat;
      run_det.
    + right. exists file, image, raw, text. repeat split; auto.
    + by left.
Qed.

Lemma call_world (m : M unit) w : (call m w).2 = (m w).2.
Proof. unfold call. by destruct (m w) as [[a|[| |e]] w']. Qed.

Lemma bind_cases {A B} (m : M A) (k : A -> M B) w :
  (exists a, bind m k w = k a (m w).2)
  \/ (exists x, bind m k w = (inr x, (m w).2)).
Proof.
  unfold bind. destruct (m w) as [[a|x] w']; simpl; [left|right]; eauto.
Qed.

Lemma bind_keeps_or {A B} (m : M A) (k : A -> M B) (Q : World -> Prop) w0 w :
  current_prescription (session_state w0) = current_prescription (session_state w) ->
  keeps same_prescription m ->
  (forall a w1, same_prescription w1 (k a w1).2 \/ Q (k a w1).2) ->
  same_prescription w0 (bind m k w).2 \/ Q (bind m k w).2.
Proof.
  intros H0 Hm Hk. unfold bind. specialize (Hm w).
  destruct (m w) as [[a|x] w1]; simpl in *.
  - destruct (Hk a w1) as [H|H]; [left|by right].
    unfold same_prescription in *. congruence.
  - left. unfold same_prescription in *. congruence.
Qed.

Lemma main_prescription w :
  let w' := (main str_datetime env w).2 in
  same_prescription w w'
  \/ (radio env = ExtractText /\ current_page w = ExtractText /\ recorded env w').
Proof.
  unfold main. rewrite call_world. unfold main_body, current_page.
  destruct w as [[pg ch cp] st u n]. run_det.
  destruct pg as [p|]; run_det.
  all: match goal with
       | |- context [bool_decide (radio env = ?p0)] =>
           destruct (bool_decide (radio env = p0)) eqn:Hnav
       end; run_det; [|by left].
  all: apply bool_decide_eq_true in Hnav.
  1: destruct p.
  all: match goal with
       | |- _ \/ (_ /\ ?E /\ recorded env _) =>
           apply (bind_keeps_or _ _
                    (fun w' => radio env = ExtractText /\ E /\ recorded env w'));
           [reflexivity | apply connect_keeps_prescription | intros c w1]
       end.
  - destruct (extract_page_prescription c w1); auto.
  - left. apply chat_page_keeps_prescription.
  - left. apply direct_page_keeps_prescription.
  - destruct (extract_page_prescription c w1); auto.
Qed.

End PrescriptionFacts.

Section ScriptPrescription.

Variable str_datetime : datetime -> string.

Lemma run_prescription env w :
  let w' := (run str_datetime env w).2 in
  (current_prescription (session_state w')
   = match current_prescription (session_state w) with
     | None => Some None
     | bound => bound
     end)
  \/ (radio env = ExtractText /\ current_page w = ExtractText /\ recorded env w').
Proof.
  unfold run, script. destruct w as [[pg ch cp] st u n]. unfold fresh.
  run_det. destruct cp as [v|]; run_det.
  all: match goal with
       | |- context [main _ ?e ?w1] =>
           destruct (main_prescription str_datetime e w1) as [H|H]
       end; [by left | by right].
Qed.

Lemma run_active env w :
  let w' := (run str_datetime env w).2 in
  active_prescription_text w' = active_prescription_text w
  \/ (radio env = ExtractText /\ current_page w = ExtractText /\ recorded env w').
Proof.
  destruct (run_prescription env w) as [H|H]; [left|by right].
  unfold active_prescription_text. rewrite H.
  by destruct (current_prescription (session_state w)).
Qed.

(** In a session the active prescription text is never the empty
    string. *)
Lemma reachable_prescription_truthy w text :
  reachable str_datetime w ->
  current_prescription (session_state w) = Some (Some text) ->
  PyStr.truthy text = true.
Proof.
  intros Hw. revert text.
  induction Hw as [docs|env w Hw IH|docs w Hw IH]; intros text.
  - discriminate.
  - destruct (run_prescription env w) as [H|(_ & _ & H)].
    + rewrite H. destruct (current_prescription (session_state w)) as [v|] eqn:Hv;
        [|discriminate]. intros [= ->]. by apply IH.
    + destruct H as (file & image & raw & text' & _ & _ & _ & _ & _ & Ht & _ & Hcp & _).
      rewrite Hcp. by intros [= <-].
  - apply IH.
Qed.

End ScriptPrescription.

(** C8: a run changes the active prescription text only when, on the page
    "Extract Text", the OCR call succeeded with a non-empty result and "Chat
    with this Prescription" was clicked, which makes that result the active
    text and moves to "Chat with Prescription Data"; a run that navigates to
    another page leaves it as it is, and so does every run without that
    click, a failed persist among them. *)
Theorem active_prescription_only_from_extraction
    (str_datetime : datetime -> string) (env : Env) (w : World) :
  let w' := (run str_datetime env w).2 in
  (active_prescription_text w' = active_prescription_text w
   \/ (radio env = ExtractText /\ current_page w = ExtractText /\ recorded env w'))
  /\ (radio env <> current_page w ->
      active_prescription_text w' = active_prescription_text w)
  /\ (button env "chat_prescription_button" = false ->
      button env "chat_prescription_no_db_button" = false ->
      active_prescription_text w' = active_prescription_text w).
Proof.
  intros w'. subst w'.
  pose proof (run_active str_datetime env w) as H. simpl in H.
  split; [exact H|split].
  - intros Hnav. destruct H as [H|(H1 & H2 & _)]; [done|congruence].
  - intros Hb1 Hb2. destruct H as [H|(_ & _ & H)]; [done|].
    destruct H as (file & image & raw & text & _ & _ & _ & _ & _ & _ & [Hc|Hc] & _);
      congruence.
Qed.

Lemma active_prescription_only_from_extraction_witness :
  active_prescription_text
    (run Demo.clock Demo.failed_persist
       (run_session Demo.clock Demo.extract_then_back (initial []))).2
  = Some "Amoxicillin 500mg twice daily".
Proof.
  exact (proj2 (proj2 (active_prescription_only_from_extraction Demo.clock
           Demo.failed_persist
           (run_session Demo.clock Demo.extract_then_back (initial []))))
           eq_refl eq_refl).
Defined.

(** ** The page "Chat with Prescription Data" *)

Lemma find_sorted_permutation docs : find_sorted docs ≡ₚ docs.
Proof. apply merge_sort_Permutation. Qed.

Global Instance newer_first_total : Total newer_first.
Proof. intros a b. unfold newer_first. lia. Qed.

Lemma find_sorted_sorted docs : Sorted newer_first (find_sorted docs).
Proof. apply Sorted_merge_sort. apply _. Qed.

Lemma find_sorted_nil docs : find_sorted docs = [] <-> docs = [].
Proof.
  split.
  - intros H. pose proof (find_sorted_permutation docs) as P.
    rewrite H in P. by apply Permutation_nil_l in P.
  - by intros ->.
Qed.

Section ChatPage.

Variable str_datetime : datetime -> string.
Variable env : Env.

Lemma has_current_bound s :
  has_current_prescription (bound_session s) = has_current_prescription s.
Proof. unfold has_current_prescription. simpl. by destruct (current_prescription s). Qed.

Lemma main_body_chat_page w :
  page (session_state w) = Some ChatWithData ->
  radio env = ChatWithData ->
  main_body str_datetime env w
  = main_chat_with_data str_datetime env (chat_collection env)
      (renders (main_header ++ chat_connection_view env) w).
Proof.
  intros Hpage Hradio. unfold main_body, chat_collection, chat_connection_view.
  destruct w as [[pg ch cp] st u n]. simpl in Hpage. subst pg.
  run_det. rewrite Hradio. run_det.
  unfold connect_if_needed, get_db_connection.
  destruct (mongo_ping env) as [e|]; run_det.
  all: f_equal; apply world_eq; norm_world; try done.
  all: unfold main_header; by rewrite <- ?app_assoc.
Qed.

(** The run on the chat page, up to the resolution of the data. *)
Lemma chat_page_run w :
  page (session_state w) = Some ChatWithData ->
  radio env = ChatWithData ->
  run str_datetime env w
  = call (main_chat_with_data str_datetime env (chat_collection env))
      {| session_state := bound_session (session_state w);
         store := store w;
         ui := main_header ++ chat_connection_view env;
         net := [] |}.
Proof.
  intros Hpage Hradio. unfold run, script, main, fresh.
  destruct w as [[pg ch cp] st u n]. simpl in Hpage. subst pg.
  run_det. destruct cp as [v|]; run_det.
  all: unfold call; rewrite main_body_chat_page by done; reflexivity.
Qed.

(** Without data the page renders the guidance and returns. *)
Lemma chat_page_no_data w :
  has_current_prescription (session_state w) = false ->
  mongo_ping env <> None \/ find_error env <> None \/ store w = [] ->
  main_chat_with_data str_datetime env (chat_collection env) w
  = (inr Return,
     renders (st_subheader "Chat with Prescription Data" :: no_data_view env) w).
Proof.
  intros Hcur Hno. unfold main_chat_with_data, chat_collection, no_data_view,
    fetch_stored_prescriptions, fetch_view.
  run_det. rewrite Hcur.
  destruct (mongo_ping env) as [e|]; run_det.
  { f_equal. apply world_eq; norm_world; try done. by rewrite <- app_assoc. }
  destruct Hno as [Hno|[Hno|Hno]]; [done| |].
  - destruct (find_error env) as [e|]; [|done]. run_det.
    f_equal. apply world_eq; norm_world; try done. by rewrite <- !app_assoc.
  - destruct (find_error env) as [e|]; run_det.
    + f_equal. apply world_eq; norm_world; try done. by rewrite <- !app_assoc.
    + rewrite Hno. run_det.
      f_equal. apply world_eq; norm_world; try done. by rewrite <- !app_assoc.
Qed.

(** With a reachable, non-empty store the page renders the selector and
    resolves the data from the selected option. *)
Lemma chat_page_selector w :
  mongo_ping env = None -> find_error env = None -> store w <> [] ->
  main_chat_with_data str_datetime env (chat_collection env) w
  = bind (resolve str_datetime env
            (selected_option env
               (prescription_options str_datetime
                  (has_current_prescription (session_state w))
                  (find_sorted (store w))))
            (find_sorted (store w)))
      (chat_with env)
      (renders [st_subheader "Chat with Prescription Data";
                st_selectbox "Choose prescription data to query"
                  (prescription_options str_datetime
                     (has_current_prescription (session_state w))
                     (find_sorted (store w)))] w).
Proof.
  intros Hping Hfind Hstore.
  unfold main_chat_with_data, chat_collection, fetch_stored_prescriptions.
  rewrite Hping, Hfind. run_det.
  assert (find_sorted (store w) <> []) as Hp by by rewrite find_sorted_nil.
  remember (find_sorted (store w)) as prescriptions eqn:Heq.
  destruct prescriptions as [|p ps]; [done|].
  run_det. unfold resolve, chat_with, selected_option.
  f_equal. apply world_eq; norm_world; try done. by rewrite <- app_assoc.
Qed.

End ChatPage.

Lemma active_none_has_current w :
  active_prescription_text w = None ->
  has_current_prescription (session_state w) = false.
Proof.
  unfold active_prescription_text, has_current_prescription.
  by destruct (current_prescription (session_state w)) as [[text|]|].
Qed.

Lemma chat_widgets_no_data env :
  chat_widgets (main_header ++ chat_connection_view env
                ++ [st_subheader "Chat with Prescription Data"] ++ no_data_view env)
  = [].
Proof.
  unfold chat_connection_view, no_data_view, fetch_view.
  destruct (mongo_ping env), (find_error env); reflexivity.
Qed.

Lemma guidance_in_no_data_view env :
  In (st_warning guidance_no_store) (no_data_view env)
  \/ In (st_info guidance_empty_store) (no_data_view env).
Proof.
  unfold no_data_view. destruct (mongo_ping env); [left; by left|right].
  apply in_or_app. right. by left.
Qed.

(** The run on the chat page without data, in closed form. *)
Lemma chat_page_no_data_run str_datetime env w :
  page (session_state w) = Some ChatWithData ->
  radio env = ChatWithData ->
  has_current_prescription (session_state w) = false ->
  mongo_ping env <> None \/ find_error env <> None \/ store w = [] ->
  run str_datetime env w
  = (inl tt, chat_page_world env w (no_data_view env)).
Proof.
  intros Hpage Hradio Hcur Hno.
  rewrite chat_page_run by done. unfold call.
  rewrite chat_page_no_data;
    [|cbn [session_state]; by rewrite has_current_bound|done].
  reflexivity.
Qed.

(** C7: on entering "Chat with Prescription Data" with no store connection
    (or an empty or unreadable store) and no active prescription text, the
    page renders the guidance to extract text first or use Direct Chat and
    returns: no chat input, no turn, no clear control is rendered, the
    transcript is as it was and no request is sent, whatever was typed. *)
Theorem chat_page_without_data
    (str_datetime : datetime -> string) (env : Env) (w : World) :
  page (session_state w) = Some ChatWithData ->
  radio env = ChatWithData ->
  active_prescription_text w = None ->
  mongo_ping env <> None \/ find_error env <> None \/ store w = [] ->
  let r := (run str_datetime env w).1 in
  let w' := (run str_datetime env w).2 in
  r = inl tt
  /\ (In (st_warning guidance_no_store) (ui w')
      \/ In (st_info guidance_empty_store) (ui w'))
  /\ chat_widgets (ui w') = []
  /\ turns (ui w') = 0
  /\ history w' = history w
  /\ net w' = [].
Proof.
  intros Hpage Hradio Hactive Hno r w'. subst r w'.
  rewrite chat_page_no_data_run by auto using active_none_has_current.
  cbn [fst snd chat_page_world ui net].
  split; [done|]. split; [|split; [|split; [|split]]].
  - destruct (guidance_in_no_data_view env) as [H|H]; [left|right];
      rewrite !in_app_iff; auto.
  - apply chat_widgets_no_data.
  - by rewrite turns_chat_widgets, chat_widgets_no_data.
  - reflexivity.
  - reflexivity.
Qed.

Lemma chat_page_without_data_witness :
  (run Demo.clock Demo.ask_without_store Demo.on_chat_page).1 = inl tt
  /\ (In (st_warning guidance_no_store)
         (ui (run Demo.clock Demo.ask_without_store Demo.on_chat_page).2)
      \/ In (st_info guidance_empty_store)
            (ui (run Demo.clock Demo.ask_without_store Demo.on_chat_page).2))
  /\ chat_widgets (ui (run Demo.clock Demo.ask_without_store Demo.on_chat_page).2) = []
  /\ turns (ui (run Demo.clock Demo.ask_without_store Demo.on_chat_page).2) = 0
  /\ history (run Demo.clock Demo.ask_without_store Demo.on_chat_page).2
     = history Demo.on_chat_page
  /\ net (run Demo.clock Demo.ask_without_store Demo.on_chat_page).2 = [].
Proof.
  apply (chat_page_without_data Demo.clock Demo.ask_without_store Demo.on_chat_page);
    try reflexivity.
  left. discriminate.
Defined.

Section SelectorFacts.

Variable str_datetime : datetime -> string.
Variable env : Env.

Lemma resolve_ui_grows selected prescriptions :
  keeps ui_grows (resolve str_datetime env selected prescriptions).
Proof.
  unfold resolve.
  destruct (String.eqb selected "All Prescriptions"); [frame|].
  destruct (String.eqb selected "Current Extracted Prescription"); frame.
Qed.

Lemma chat_with_ui_grows data : keeps ui_grows (chat_with env data).
Proof. unfold chat_with. frame. Qed.

(** The run on the chat page with a reachable, non-empty store. *)
Lemma chat_page_selector_run w :
  page (session_state w) = Some ChatWithData ->
  radio env = ChatWithData ->
  mongo_ping env = None -> find_error env = None -> store w <> [] ->
  let options :=
    prescription_options str_datetime
      (has_current_prescription (session_state w)) (find_sorted (store w)) in
  run str_datetime env w
  = call (bind (resolve str_datetime env (selected_option env options)
                  (find_sorted (store w)))
               (chat_with env))
      (chat_page_world env w
         [st_selectbox "Choose prescription data to query" options]).
Proof.
  intros Hpage Hradio Hping Hfind Hstore options. subst options.
  rewrite chat_page_run by done. unfold call.
  rewrite chat_page_selector by done.
  cbn [session_state store]. rewrite has_current_bound.
  replace (renders _ _) with
    (chat_page_world env w
       [st_selectbox "Choose prescription data to query"
          (prescription_options str_datetime
             (has_current_prescription (session_state w))
             (find_sorted (store w)))]); [done|].
  apply world_eq; simpl; rewrite <- ?app_assoc; done.
Qed.

Lemma reachable_has_current w :
  reachable str_datetime w ->
  has_current_prescription (session_state w)
  = match active_prescription_text w with Some _ => true | None => false end.
Proof.
  intros Hw. unfold has_current_prescription, active_prescription_text.
  destruct (current_prescription (session_state w)) as [[text|]|] eqn:Hcp; try done.
  simpl. by eapply reachable_prescription_truthy.
Qed.

End SelectorFacts.

Lemma reachable_session str_datetime envs docs :
  reachable str_datetime (run_session str_datetime envs (initial docs)).
Proof.
  assert (forall w, reachable str_datetime w ->
                    reachable str_datetime (run_session str_datetime envs w)) as H.
  { induction envs as [|env envs IH]; intros w Hw; simpl; [done|].
    apply IH. by constructor. }
  apply H. constructor.
Qed.

(** C6: on entering "Chat with Prescription Data" with a reachable store
    holding at least one record, the selector lists "Current Extracted
    Prescription" first exactly when an active prescription text is set,
    then "All Prescriptions", then one option per stored record, labelled
    with its 1-based ordinal and its upload date, the records taken newest
    first. *)
Theorem selector_options_order
    (str_datetime : datetime -> string) (env : Env) (w : World) :
  reachable str_datetime w ->
  page (session_state w) = Some ChatWithData ->
  radio env = ChatWithData ->
  mongo_ping env = None -> find_error env = None -> store w <> [] ->
  let prescriptions := find_sorted (store w) in
  let options :=
    match active_prescription_text w with
    | Some _ => ["Current Extracted Prescription"]
    | None => []
    end
    ++ "All Prescriptions"
       :: imap (fun idx prescription =>
                  "Prescription " +:+ PyStr.of_nat (idx + 1) +:+ " - "
                    +:+ str_datetime (upload_date prescription))
            prescriptions in
  In (st_selectbox "Choose prescription data to query" options)
     (ui (run str_datetime env w).2)
  /\ Sorted newer_first prescriptions
  /\ prescriptions ≡ₚ store w.
Proof.
  intros Hw Hpage Hradio Hping Hfind Hstore prescriptions options.
  split; [|split; [apply find_sorted_sorted | apply find_sorted_permutation]].
  rewrite chat_page_selector_run by done.
  rewrite call_world.
  match goal with
  | |- In _ (ui (bind ?m ?k ?w0).2) =>
      assert (ui_grows w0 (bind m k w0).2) as [rest ->]
  end.
  { apply keeps_bind; [apply _ | apply resolve_ui_grows |].
    intros data. apply chat_with_ui_grows. }
  apply in_or_app. left. cbn [chat_page_world ui].
  rewrite !in_app_iff. right. right. right.
  left. f_equal. subst options prescriptions.
  rewrite (reachable_has_current str_datetime w Hw).
  unfold prescription_options.
  by destruct (active_prescription_text w).
Qed.

(** C5: with a non-empty store, selecting "All Prescriptions" makes
    [prescription_data] the texts of all stored records joined by blank
    lines, each after its label "Prescription n:" with n its 1-based
    ordinal, the records taken newest first; with two records the newer
    one's label and full text come before the older one's. *)
Theorem all_prescriptions_newest_first
    (str_datetime : datetime -> string) (env : Env) (w : World) :
  page (session_state w) = Some ChatWithData ->
  radio env = ChatWithData ->
  mongo_ping env = None -> find_error env = None -> store w <> [] ->
  selected_option env
    (prescription_options str_datetime
       (has_current_prescription (session_state w)) (find_sorted (store w)))
  = "All Prescriptions" ->
  let prescriptions := find_sorted (store w) in
  let data :=
    PyStr.join (PyStr.nl +:+ PyStr.nl)
      (imap (fun idx prescription =>
               "Prescription " +:+ PyStr.of_nat (idx + 1) +:+ ":" +:+ PyStr.nl
                 +:+ extracted_text prescription)
            prescriptions) in
  (exists w_mid,
     run str_datetime env w = call (display_chat_interface env (Some data)) w_mid
     /\ In (st_text_area "Prescription Data" (Some data) None) (ui w_mid))
  /\ In (st_text_area "Prescription Data" (Some data) None)
        (ui (run str_datetime env w).2)
  /\ Sorted newer_first prescriptions
  /\ prescriptions ≡ₚ store w
  /\ (forall R1 R2,
        (upload_date R2 < upload_date R1)%Z ->
        store w = [R1; R2] \/ store w = [R2; R1] ->
        data = ("Prescription 1:" +:+ PyStr.nl +:+ extracted_text R1)
               +:+ (PyStr.nl +:+ PyStr.nl)
               +:+ ("Prescription 2:" +:+ PyStr.nl +:+ extracted_text R2)).
Proof.
  intros Hpage Hradio Hping Hfind Hstore Hsel prescriptions data.
  assert (exists w_mid,
            run str_datetime env w
            = call (display_chat_interface env (Some data)) w_mid
            /\ In (st_text_area "Prescription Data" (Some data) None) (ui w_mid))
    as (w_mid & Hrun & Hin).
  { rewrite chat_page_selector_run by done. rewrite Hsel.
    unfold resolve. simpl String.eqb. cbv iota.
    eexists. split.
    - unfold call. rewrite bind_ret. unfold chat_with. run_det. reflexivity.
    - cbn [ui render chat_page_world]. apply in_or_app. right. by left. }
  split; [by exists w_mid|]. split; [|split; [|split]].
  - rewrite Hrun, call_world.
    destruct (display_ui_grows env (Some data) w_mid) as [rest ->].
    apply in_or_app. by left.
  - apply find_sorted_sorted.
  - apply find_sorted_permutation.
  - intros R1 R2 Hlt Hw. subst data prescriptions.
    assert (find_sorted (store w) = [R1; R2]) as ->.
    { destruct Hw as [-> | ->]; unfold find_sorted, merge_sort; simpl;
        repeat case_decide; unfold newer_first in *; try lia; reflexivity. }
    reflexivity.
Qed.

Lemma selector_options_order_witness :
  In (st_selectbox "Choose prescription data to query"
        ["Current Extracted Prescription"; "All Prescriptions";
         "Prescription 1 - t20"; "Prescription 2 - t10"])
     (ui (run Demo.clock Demo.enter_chat
            (run_session Demo.clock Demo.extract_then_chat
               (initial [Demo.R2; Demo.R1]))).2).
Proof.
  refine (proj1 (selector_options_order Demo.clock Demo.enter_chat
            (run_session Demo.clock Demo.extract_then_chat
               (initial [Demo.R2; Demo.R1]))
            (reachable_session _ _ _) eq_refl eq_refl eq_refl eq_refl _)).
  discriminate.
Defined.

Lemma all_prescriptions_newest_first_witness :
  In (st_text_area "Prescription Data"
        (Some (("Prescription 1:" +:+ PyStr.nl +:+ "Ibuprofen 200mg")
               +:+ (PyStr.nl +:+ PyStr.nl)
               +:+ ("Prescription 2:" +:+ PyStr.nl +:+ "Amoxicillin 500mg")))
        None)
     (ui (run Demo.clock Demo.enter_chat
            (run Demo.clock Demo.enter_chat
               (initial [Demo.R2; Demo.R1])).2).2).
Proof.
  refine (proj1 (proj2 (all_prescriptions_newest_first Demo.clock
            Demo.enter_chat
            (run Demo.clock Demo.enter_chat
               (initial [Demo.R2; Demo.R1])).2
            eq_refl eq_refl eq_refl eq_refl _ eq_refl))).
  discriminate.
Defined.

(** ** An empty string as active prescription text *)

Section EmptyText.

Variable str_datetime : datetime -> string.
Variable env : Env.

Lemma selected_option_in options :
  options <> [] -> In (selected_option env options) options.
Proof.
  intros Hne. unfold selected_option.
  destruct (options !! selectbox env options) as [s|] eqn:Hs; simpl.
  - apply list_elem_of_In. by eapply list_elem_of_lookup_2.
  - destruct options as [|o options]; [done|]. by left.
Qed.

Lemma options_without_current prescriptions :
  ~ In "Current Extracted Prescription"
      (prescription_options str_datetime false prescriptions).
Proof.
  unfold prescription_options. intros [H|H]; [discriminate|].
  apply list_elem_of_In, list_elem_of_lookup in H as [idx H].
  rewrite list_lookup_imap in H.
  destruct (prescriptions !! idx) as [p|]; simpl in H; [|discriminate].
  unfold prescription_option in H. discriminate.
Qed.

Lemma stored_prescription_pure selected prescriptions :
  exists r, forall w, stored_prescription selected prescriptions w = (r, w).
Proof.
  unfold stored_prescription.
  destruct (PyStr.split " " selected !! 1) as [field|]; [|by eexists].
  destruct (PyStr.int field) as [n|]; [|by eexists].
  destruct (PyStr.index prescriptions (n - 1)) as [p|]; by eexists.
Qed.

Lemma chat_with_commute v data w :
  chat_with env data (with_session (set_current_prescription v) w)
  = ((chat_with env data w).1,
     with_session (set_current_prescription v) (chat_with env data w).2).
Proof.
  unfold chat_with. run_det. rewrite !display_chat_interface_eq.
  cbn [fst snd]. f_equal.
Qed.

Lemma resolve_commute v selected prescriptions w :
  selected <> "Current Extracted Prescription" ->
  call (bind (resolve str_datetime env selected prescriptions) (chat_with env))
    (with_session (set_current_prescription v) w)
  = ((call (bind (resolve str_datetime env selected prescriptions)
              (chat_with env)) w).1,
     with_session (set_current_prescription v)
       (call (bind (resolve str_datetime env selected prescriptions)
                (chat_with env)) w).2).
Proof.
  intros Hsel. unfold resolve, call.
  destruct (String.eqb selected "All Prescriptions").
  { rewrite !bind_ret, chat_with_commute.
    by destruct (chat_with env _ w) as [[a|[| |e]] w']. }
  destruct (String.eqb_spec selected "Current Extracted Prescription"); [done|].
  destruct (stored_prescription_pure selected prescriptions) as [r Hr].
  destruct r as [data|x].
  - rewrite !(bind_value _ _ _ data _ (Hr _)), chat_with_commute.
    by destruct (chat_with env _ w) as [[a|[| |e]] w'].
  - rewrite !(bind_exit _ _ _ x _ (Hr _)). by destruct x.
Qed.

End EmptyText.

(** C10: on "Chat with Prescription Data" an active prescription text equal
    to the empty string counts as no active text.  The run is the run with
    no active text, the empty string staying in its slot; with a reachable,
    non-empty store the selector starts at "All Prescriptions" and does not
    offer "Current Extracted Prescription"; with an unreachable, unreadable
    or empty store the page renders the no-data guidance and returns without
    a chat panel instead of chatting over the empty string. *)
Theorem empty_text_is_no_text
    (str_datetime : datetime -> string) (env : Env) (w : World) :
  page (session_state w) = Some ChatWithData ->
  radio env = ChatWithData ->
  let w_empty := with_session (set_current_prescription (Some EmptyString)) w in
  let w_none := with_session (set_current_prescription None) w in
  run str_datetime env w_empty
  = ((run str_datetime env w_none).1,
     with_session (set_current_prescription (Some EmptyString))
       (run str_datetime env w_none).2)
  /\ (mongo_ping env = None -> find_error env = None -> store w <> [] ->
      let options :=
        "All Prescriptions"
        :: imap (fun idx prescription =>
                   "Prescription " +:+ PyStr.of_nat (idx + 1) +:+ " - "
                     +:+ str_datetime (upload_date prescription))
             (find_sorted (store w)) in
      In (st_selectbox "Choose prescription data to query" options)
         (ui (run str_datetime env w_empty).2)
      /\ ~ In "Current Extracted Prescription" options)
  /\ (mongo_ping env <> None \/ find_error env <> None \/ store w = [] ->
      (run str_datetime env w_empty).1 = inl tt
      /\ (In (st_warning guidance_no_store) (ui (run str_datetime env w_empty).2)
          \/ In (st_info guidance_empty_store) (ui (run str_datetime env w_empty).2))
      /\ chat_widgets (ui (run str_datetime env w_empty).2) = []
      /\ history (run str_datetime env w_empty).2 = history w
      /\ net (run str_datetime env w_empty).2 = []).
Proof.
  intros Hpage Hradio w_empty w_none.
  assert (page (session_state w_empty) = Some ChatWithData) as Hpe by done.
  assert (page (session_state w_none) = Some ChatWithData) as Hpn by done.
  assert (has_current_prescription (session_state w_empty) = false) as Hce by done.
  assert (has_current_prescription (session_state w_none) = false) as Hcn by done.
  assert (mongo_ping env <> None \/ find_error env <> None \/ store w = []
          \/ (mongo_ping env = None /\ find_error env = None /\ store w <> []))
    as Hcases.
  { destruct (mongo_ping env); [left; done|].
    destruct (find_error env); [right; left; done|].
    destruct (store w); [right; right; left; done|].
    right. right. right. done. }
  split; [|split].
  - destruct Hcases as [H|[H|[H|(Hping & Hfind & Hstore)]]].
    1-3: rewrite !chat_page_no_data_run by auto; reflexivity.
    rewrite !chat_page_selector_run by done.
    rewrite Hce, Hcn.
    change (store w_empty) with (store w). change (store w_none) with (store w).
    match goal with
    | |- call ?m ?w1 = ((call ?m ?w2).1, _) =>
        change w1 with (with_session (set_current_prescription (Some EmptyString)) w2)
    end.
    apply resolve_commute.
    intros Heq. eapply options_without_current. rewrite <- Heq.
    apply selected_option_in. unfold prescription_options. discriminate.
  - intros Hping Hfind Hstore options. split.
    + rewrite chat_page_selector_run by done. rewrite call_world, Hce.
      match goal with
      | |- In _ (ui (bind ?m ?k ?w0).2) =>
          assert (ui_grows w0 (bind m k w0).2) as [rest ->]
      end.
      { apply keeps_bind; [apply _ | apply resolve_ui_grows |].
        intros data. apply chat_with_ui_grows. }
      apply in_or_app. left. cbn [chat_page_world ui].
      rewrite !in_app_iff. right. right. right. by left.
    + apply (options_without_current str_datetime (find_sorted (store w))).
  - intros Hno. rewrite chat_page_no_data_run by auto.
    cbn [fst snd chat_page_world ui net].
    split; [done|]. split; [|split; [|split]].
    + destruct (guidance_in_no_data_view env) as [H|H]; [left|right];
        rewrite !in_app_iff; auto.
    + apply chat_widgets_no_data.
    + reflexivity.
    + reflexivity.
Qed.

Lemma empty_text_is_no_text_witness :
  run Demo.clock Demo.enter_chat
    (with_session (set_current_prescription (Some EmptyString))
       (run Demo.clock Demo.enter_chat (initial [Demo.R2; Demo.R1])).2)
  = ((run Demo.clock Demo.enter_chat
        (with_session (set_current_prescription None)
           (run Demo.clock Demo.enter_chat
              (initial [Demo.R2; Demo.R1])).2)).1,
     with_session (set_current_prescription (Some EmptyString))
       (run Demo.clock Demo.enter_chat
          (with_session (set_current_prescription None)
             (run Demo.clock Demo.enter_chat
                (initial [Demo.R2; Demo.R1])).2)).2).
Proof.
  exact (proj1 (empty_text_is_no_text Demo.clock Demo.enter_chat
           (run Demo.clock Demo.enter_chat (initial [Demo.R2; Demo.R1])).2
           eq_refl eq_refl)).
Defined.

(** ** Extraction without text *)

(** Line 47: the emptiness test comes before [strip], so OCR output that is
    whitespace only yields the empty string, while empty output yields the
    placeholder. *)
Lemma extract_text_whitespace env image raw w :
  image_to_string env image = Ok raw ->
  PyStr.truthy raw = true -> PyStr.strip raw = EmptyString ->
  extract_text_from_image env image w = (inl (Some EmptyString), w).
Proof.
  intros Hraw Ht Hs. unfold extract_text_from_image. by rewrite Hraw, Ht, Hs.
Qed.

Lemma extract_text_empty env image w :
  image_to_string env image = Ok EmptyString ->
  extract_text_from_image env image w = (inl (Some "No text detected"), w).
Proof. intros Hraw. unfold extract_text_from_image. by rewrite Hraw. Qed.

(** For every whitespace-only OCR output the page stops after the spinner,
    whatever the store and the session are. *)
Lemma whitespace_scan_run str_datetime env w file image raw :
  current_page w = ExtractText ->
  radio env = ExtractText ->
  file_uploader env = Some file ->
  Image_open env file = Ok image ->
  button env "Extract Text" = true ->
  image_to_string env image = Ok raw ->
  PyStr.truthy raw = true -> PyStr.strip raw = EmptyString ->
  run str_datetime env w
  = (inl tt,
     {| session_state := started_session (session_state w);
        store := store w;
        ui := main_header ++ extract_connection_view env ++ extraction_view;
        net := [] |}).
Proof.
  intros Hpage Hradio Hfile Himage Hclick Hraw Ht Hs.
  unfold run, script, main, call, main_body, current_page, fresh,
    extract_connection_view, started_session in *.
  destruct w as [[pg ch cp] st u n]. simpl in Hpage.
  run_det. destruct cp as [v|]; run_det.
  all: destruct pg as [p|]; simpl in Hpage; subst; run_det.
  all: rewrite Hradio; run_det.
  all: unfold connect_if_needed, get_db_connection, main_extract_text.
  all: destruct (mongo_ping env) as [e|]; run_det.
  all: rewrite Hfile, Himage; run_det; rewrite Hclick; run_det.
  all: erewrite bind_value by (by apply (extract_text_whitespace _ _ raw)); run_det.
  all: f_equal; apply world_eq; norm_world; simpl; rewrite <- ?app_assoc; done.
Qed.

(** C2, where the code departs from it: when the OCR call succeeds with
    whitespace only, [extract_text_from_image] returns the empty string and
    the page stops after the spinner: it renders neither the text nor "Chat
    with this Prescription" nor "Submit to Database".  When the OCR call
    returns the empty string itself, the text becomes "No text detected" and
    all three follow-on controls are rendered. *)
Theorem blank_scan_offers_nothing :
  ui (run Demo.clock (Demo.extracting (Ok Demo.blank_scan_text))
        (initial [])).2
  = main_header
    ++ [st_success "Database connection successful!";
        st_file_uploader "Choose an image..." ["jpg"; "png"; "jpeg"];
        st_image "Uploaded Prescription";
        st_button "Extract Text" None;
        st_spinner "Processing image..."]
  /\ ui (run Demo.clock (Demo.extracting (Ok EmptyString)) (initial [])).2
     = main_header
       ++ [st_success "Database connection successful!";
           st_file_uploader "Choose an image..." ["jpg"; "png"; "jpeg"];
           st_image "Uploaded Prescription";
           st_button "Extract Text" None;
           st_spinner "Processing image...";
           st_subheader "Extracted Text";
           st_text_area "Result" (Some "No text detected") (Some "extracted_text_area");
           st_columns 3;
           st_button "Submit to Database" (Some "submit_to_db_button");
           st_button "View Stored Prescriptions" (Some "view_prescriptions_button");
           st_button "Chat with this Prescription" (Some "chat_prescription_button")].
Proof. split; vm_compute; reflexivity. Qed.

(** * Further properties of the code *)

(** ** Labels and ordinals: [str], [split] and [int] *)

Lemma digit_not_space c d : PyStr.digit c = Some d -> PyStr.isspace c = false.
Proof.
  destruct c as [[] [] [] [] [] [] [] []]; vm_compute; congruence.
Qed.

Lemma digit_not_blank c d : PyStr.digit c = Some d -> Ascii.eqb c " " = false.
Proof.
  destruct c as [[] [] [] [] [] [] [] []]; vm_compute; congruence.
Qed.

Lemma digits_numeral acc s :
  digits_only s = true -> PyStr.digits acc s = Some (numeral acc s).
Proof.
  revert acc. induction s as [|c s IH]; intros acc Hs; simpl in *; [done|].
  destruct (PyStr.digit c) as [d|]; [|done]. simpl. by apply IH.
Qed.

Lemma numeral_shift acc s :
  numeral acc s = (acc * 10 ^ Z.of_nat (String.length s) + numeral 0 s)%Z.
Proof.
  revert acc. induction s as [|c s IH]; intros acc.
  - simpl. lia.
  - cbn [numeral String.length]. rewrite (IH (10 * acc + _)%Z), (IH (10 * 0 + _)%Z).
    rewrite Nat2Z.inj_succ, Z.pow_succ_r by lia. lia.
Qed.

Lemma pretty_N_char_digit d :
  (d < 10)%N -> PyStr.digit (pretty_N_char d) = Some (Z.of_N d).
Proof.
  intros Hd.
  assert (d = 0 \/ d = 1 \/ d = 2 \/ d = 3 \/ d = 4 \/ d = 5 \/ d = 6
          \/ d = 7 \/ d = 8 \/ d = 9)%N as H by lia.
  repeat destruct H as [->|H]; try subst d; reflexivity.
Qed.

Lemma pretty_N_go_numeral x s :
  digits_only s = true ->
  digits_only (pretty_N_go x s) = true
  /\ numeral 0 (pretty_N_go x s)
     = (Z.of_N x * 10 ^ Z.of_nat (String.length s) + numeral 0 s)%Z.
Proof.
  revert s. induction (N.lt_wf_0 x) as [x _ IH]; intros s Hs.
  destruct (decide (x = 0)%N) as [->|Hx].
  - rewrite pretty_N_go_0. split; [done|]. lia.
  - rewrite pretty_N_go_step by lia.
    assert (x `mod` 10 < 10)%N as Hm by (apply N.mod_lt; lia).
    destruct (IH (x `div` 10)%N) with (s := String (pretty_N_char (x `mod` 10)) s)
      as [H1 H2].
    { apply N.div_lt; lia. }
    { simpl. by rewrite (pretty_N_char_digit _ Hm). }
    split; [done|]. rewrite H2.
    cbn [numeral String.length]. rewrite (pretty_N_char_digit _ Hm). simpl default.
    rewrite (numeral_shift (10 * 0 + _)%Z), Nat2Z.inj_succ, Z.pow_succ_r by lia.
    pose proof (N.div_mod x 10). lia.
Qed.

Lemma of_nat_numeral n :
  digits_only (PyStr.of_nat n) = true
  /\ numeral 0 (PyStr.of_nat n) = Z.of_nat n
  /\ PyStr.of_nat n <> EmptyString.
Proof.
  unfold PyStr.of_nat, pretty, pretty_nat, pretty, pretty_N.
  destruct (decide (N.of_nat n = 0)%N) as [H|H].
  - repeat split; [simpl; lia|done].
  - destruct (pretty_N_go_numeral (N.of_nat n) EmptyString eq_refl) as [H1 H2].
    repeat split; [done| |].
    + rewrite H2. simpl. lia.
    + intros Heq. rewrite Heq in H2. simpl in H2. lia.
Qed.

Lemma append_cons c (s t : string) : String c s +:+ t = String c (s +:+ t).
Proof. reflexivity. Qed.

Lemma append_nil_r (s : string) : s +:+ EmptyString = s.
Proof. induction s as [|c s IH]; [done|]. by rewrite append_cons, IH. Qed.

Lemma rev_app_rev_app (s t u : string) :
  String.rev_app (String.rev_app s t) u = String.rev_app t (s +:+ u).
Proof.
  revert t u. induction s as [|c s IH]; intros t u; [done|].
  rewrite append_cons. cbn [String.rev_app]. by rewrite IH.
Qed.

Lemma rev_involutive (s : string) : String.rev (String.rev s) = s.
Proof. unfold String.rev. rewrite rev_app_rev_app. cbn. apply append_nil_r. Qed.

Lemma digits_only_rev_app s t :
  digits_only s = true -> digits_only t = true ->
  digits_only (String.rev_app s t) = true.
Proof.
  revert t. induction s as [|c s IH]; intros t Hs Ht; simpl in *; [done|].
  destruct (PyStr.digit c) as [d|] eqn:Hc; [|done].
  apply IH; [done|]. simpl. by rewrite Hc.
Qed.

Lemma lstrip_digits s : digits_only s = true -> PyStr.lstrip s = s.
Proof.
  destruct s as [|c s]; simpl; [done|].
  destruct (PyStr.digit c) as [d|] eqn:Hc; [|done].
  intros _. by rewrite (digit_not_space _ _ Hc).
Qed.

Lemma strip_digits s : digits_only s = true -> PyStr.strip s = s.
Proof.
  intros Hs. unfold PyStr.strip, PyStr.rstrip.
  rewrite (lstrip_digits s Hs), lstrip_digits.
  - apply rev_involutive.
  - by apply digits_only_rev_app.
Qed.

(** [int(str(n))] is [n]. *)
Lemma int_of_nat n : PyStr.int (PyStr.of_nat n) = Some (Z.of_nat n).
Proof.
  destruct (of_nat_numeral n) as (Hd & Hn & Hne).
  unfold PyStr.int. rewrite (strip_digits _ Hd).
  destruct (PyStr.of_nat n) as [|c s]; [done|].
  simpl in Hd. destruct (PyStr.digit c) as [d|] eqn:Hc; [|done].
  assert (PyStr.unsigned (String c s) = Some (Z.of_nat n)) as Hu.
  { simpl. rewrite Hc, (digits_numeral _ _ Hd). f_equal.
    rewrite <- Hn. cbn [numeral]. rewrite Hc. simpl default. f_equal. }
  revert Hc Hu.
  destruct c as [[] [] [] [] [] [] [] []]; try (vm_compute; discriminate);
    intros _ Hu; exact Hu.
Qed.

Lemma digits_no_space s : digits_only s = true -> no_space s = true.
Proof.
  induction s as [|c s IH]; simpl; [done|].
  destruct (PyStr.digit c) as [d|] eqn:Hc; [|done].
  intros Hs. by rewrite (digit_not_blank _ _ Hc), IH.
Qed.

Lemma split_nonempty sep s : PyStr.split sep s <> [].
Proof.
  destruct s as [|c s]; simpl; [done|].
  destruct (Ascii.eqb c sep); [done|]. by destruct (PyStr.split sep s).
Qed.

(** A field without a space is split off at the space that follows it. *)
Lemma split_field a rest :
  no_space a = true ->
  PyStr.split " " (a +:+ String " " rest) = a :: PyStr.split " " rest.
Proof.
  induction a as [|c a IH]; intros Ha; [done|].
  cbn [no_space] in Ha. apply andb_prop in Ha as [Hc Ha].
  apply negb_true_iff in Hc.
  rewrite append_cons. cbn [PyStr.split]. rewrite Hc, (IH Ha). done.
Qed.

Lemma index_of_nat {A} (l : list A) (i : nat) :
  PyStr.index l (Z.of_nat (i + 1) - 1) = l !! i.
Proof.
  unfold PyStr.index.
  replace (Z.of_nat (i + 1) - 1)%Z with (Z.of_nat i) by lia.
  destruct (0 <=? Z.of_nat i)%Z eqn:H; [by rewrite Nat2Z.id|].
  apply Z.leb_gt in H. lia.
Qed.

Section StoredRecord.

Variable str_datetime : datetime -> string.

Lemma option_ordinal idx prescription :
  PyStr.split " " (prescription_option str_datetime idx prescription) !! 1
  = Some (PyStr.of_nat (idx + 1)).
Proof.
  unfold prescription_option.
  destruct (of_nat_numeral (idx + 1)) as (Hd & _ & _).
  change ("Prescription " +:+ ?x) with ("Prescription" +:+ String " " x).
  rewrite split_field by reflexivity.
  change (" - " +:+ ?x) with (String " " ("- " +:+ x)).
  rewrite split_field by by apply digits_no_space.
  reflexivity.
Qed.

(** Lines 290-292 on a label of lines 273-274: the ordinal parsed out of
    the label of position [idx] leads back to the record at [idx]. *)
Lemma stored_prescription_option idx labelled prescription prescriptions w :
  prescriptions !! idx = Some prescription ->
  stored_prescription (prescription_option str_datetime idx labelled) prescriptions w
  = (inl (Some (extracted_text prescription)), w).
Proof.
  intros Hidx. unfold stored_prescription.
  by rewrite option_ordinal, int_of_nat, index_of_nat, Hidx.
Qed.

End StoredRecord.

(** X1: choosing the option of one stored record makes [prescription_data]
    that record's text: the ordinal that lines 290-292 parse out of the
    label written at lines 273-274 leads back to the labelled record,
    whatever the upload date renders as. *)
Theorem stored_record_selected
    (str_datetime : datetime -> string) (env : Env) (w : World)
    (idx : nat) (prescription : Prescription) :
  page (session_state w) = Some ChatWithData ->
  radio env = ChatWithData ->
  mongo_ping env = None -> find_error env = None ->
  find_sorted (store w) !! idx = Some prescription ->
  selected_option env
    (prescription_options str_datetime
       (has_current_prescription (session_state w)) (find_sorted (store w)))
  = prescription_option str_datetime idx prescription ->
  (exists w_mid,
     run str_datetime env w
     = call (display_chat_interface env (Some (extracted_text prescription))) w_mid)
  /\ In (st_text_area "Prescription Data" (Some (extracted_text prescription)) None)
        (ui (run str_datetime env w).2).
Proof.
  intros Hpage Hradio Hping Hfind Hidx Hsel.
  assert (store w <> []) as Hstore.
  { intros Hw. rewrite Hw in Hidx. discriminate. }
  assert (exists w_mid,
            run str_datetime env w
            = call (display_chat_interface env (Some (extracted_text prescription))) w_mid
            /\ In (st_text_area "Prescription Data"
                     (Some (extracted_text prescription)) None) (ui w_mid))
    as (w_mid & Hrun & Hin).
  { rewrite chat_page_selector_run by done. rewrite Hsel.
    unfold resolve, prescription_option. simpl String.eqb. cbv iota.
    fold (prescription_option str_datetime idx prescription).
    eexists. split.
    - unfold call.
      erewrite bind_value by (by apply stored_prescription_option).
      unfold chat_with. run_det. reflexivity.
    - cbn [ui render chat_page_world]. apply in_or_app. right. by left. }
  split; [by exists w_mid|].
  rewrite Hrun, call_world.
  destruct (display_ui_grows env (Some (extracted_text prescription)) w_mid)
    as [rest ->].
  apply in_or_app. by left.
Qed.

Lemma stored_record_selected_witness :
  In (st_text_area "Prescription Data" (Some "Ibuprofen 200mg") None)
     (ui (run Demo.clock Demo.second_chosen
            (run Demo.clock Demo.enter_chat (initial [Demo.R2; Demo.R1])).2).2).
Proof.
  exact (proj2 (stored_record_selected Demo.clock Demo.second_chosen
           (run Demo.clock Demo.enter_chat (initial [Demo.R2; Demo.R1])).2
           0 Demo.R1 eq_refl eq_refl eq_refl eq_refl eq_refl eq_refl)).
Defined.

(** ** Exceptions that leave a run *)

Global Instance stays_bound_preorder : PreOrder stays_bound.
Proof. split; unfold stays_bound; [intros w; auto | intros a b c; auto]. Qed.

Lemma render_stays_bound e w : stays_bound w (render e w).
Proof. by unfold stays_bound. Qed.

Lemma stored_stays_bound d w : stays_bound w (stored d w).
Proof. by unfold stays_bound. Qed.

Lemma sent_stays_bound r w : stays_bound w (sent r w).
Proof. by unfold stays_bound. Qed.

Lemma set_history_stays_bound h w :
  stays_bound w (with_session (set_chat_history h) w).
Proof. by unfold stays_bound. Qed.

Lemma set_page_stays_bound p w : stays_bound w (with_session (set_page p) w).
Proof. by unfold stays_bound. Qed.

Lemma set_prescription_stays_bound v w :
  stays_bound w (with_session (set_current_prescription v) w).
Proof. unfold stays_bound, prescription_bound. simpl. done. Qed.

#[export] Hint Resolve render_stays_bound stored_stays_bound sent_stays_bound
  set_history_stays_bound set_page_stays_bound set_prescription_stays_bound
  : frame.

Section Raises.

Context (P : exn -> Prop).











End Raises.



Section RaisesFacts.

Variable str_datetime : datetime -> string.
Variable env : Env.










End RaisesFacts.



(** ** Writes to the store *)

Global Instance same_store_preorder : PreOrder same_store.
Proof.
  split; [intros w; reflexivity|].
  intros a b c H1 H2. unfold same_store in *. congruence.
Qed.

Lemma render_same_store e w : same_store w (render e w).
Proof. reflexivity. Qed.

Lemma sent_same_store r w : same_store w (sent r w).
Proof. reflexivity. Qed.

Lemma with_session_same_store f w : same_store w (with_session f w).
Proof. reflexivity. Qed.

#[export] Hint Resolve render_same_store sent_same_store with_session_same_store
  : frame.

Section StoreFacts.

Variable str_datetime : datetime -> string.
Variable env : Env.

Lemma view_same_store c :
  keeps same_store (view_stored_prescriptions str_datetime env c).
Proof. frame. Qed.

Lemma chat_button_same_store key text :
  keeps same_store (chat_with_this_prescription env key text).
Proof. frame. Qed.

Lemma chat_page_same_store c :
  keeps same_store (main_chat_with_data str_datetime env c).
Proof. unfold main_chat_with_data. frame. Qed.

Lemma direct_page_same_store : keeps same_store (main_direct_chat env).
Proof. frame. Qed.

Lemma connect_same_store p : keeps same_store (connect_if_needed env p).
Proof. frame. Qed.

(** Lines 213-220 and 52-64: the column of "Submit to Database" appends one
    document when it is clicked and the insert succeeds, and leaves the
    store alone otherwise. *)
Lemma submit_store text c w :
  let w' := (submit_to_database env text c w).2 in
  same_store w w'
  \/ exists id,
       button env "submit_to_db_button" = true
       /\ insert_one env = Ok id
       /\ store w' = store w ++ [{| doc_id := id; extracted_text := text;
                                    upload_date := datetime_now env |}].
Proof.
  unfold submit_to_database, save_to_database. run_det.
  destruct (button env "submit_to_db_button") eqn:Hclick; run_det; [|by left].
  destruct (insert_one env) as [id|e] eqn:Hinsert; run_det; [|by left].
  right. by exists id.
Qed.

Lemma extract_page_store c w :
  let w' := (main_extract_text str_datetime env c w).2 in
  same_store w w' \/ persisted env w w'.
Proof.
  unfold main_extract_text, extract_text_from_image.
  run_det.
  destruct (file_uploader env) as [file|] eqn:Hfile; [|by left].
  destruct (Image_open env file) as [image|e] eqn:Himage; run_det; [|by left].
  destruct (button env "Extract Text") eqn:Hclick; run_det; [|by left].
  destruct (image_to_string env image) as [raw|e] eqn:Hraw; run_det;
    [|by left].
  set (text := if PyStr.truthy raw then PyStr.strip raw else "No text detected").
  destruct (PyStr.truthy text) eqn:Htext; run_det; [|by left].
  destruct c as [c|]; run_det.
  - rewrite (bind_total _ _ _ tt) by apply submit_returns.
    match goal with
    | |- context [submit_to_database env text c ?w0] =>
        pose proof (submit_store text c w0) as Hsubmit;
        set (w1 := (submit_to_database env text c w0).2) in *
    end.
    match goal with
    | |- context [bind ?m ?k w1] =>
        assert (same_store w1 (bind m k w1).2) as Hrest
    end.
    { apply keeps_bind; [apply _ | apply view_same_store |].
      intros _. apply chat_button_same_store. }
    simpl in Hsubmit. unfold same_store in *. cbn [render renders store] in *.
    destruct Hsubmit as [Hs|(id & Hb & Hi & Hs)]; [left; congruence|].
    right. exists file, image, raw, text, id.
    repeat split; try done. by rewrite Hrest, Hs.
  - left.
    match goal with
    | |- same_store _ (bind ?m ?k ?w0).2 =>
        assert (same_store w0 (bind m k w0).2) as Hrest
    end.
    { apply keeps_bind; [apply _ | apply chat_button_same_store |].
      intros _. frame. }
    exact Hrest.
Qed.

Lemma bind_same_store_or {A B} (m : M A) (k : A -> M B) (Q : World -> Prop) w0 w :
  store w0 = store w ->
  keeps same_store m ->
  (forall a w1, store w1 = store w0 -> same_store w1 (k a w1).2 \/ Q (k a w1).2) ->
  same_store w0 (bind m k w).2 \/ Q (bind m k w).2.
Proof.
  intros H0 Hm Hk. unfold bind. specialize (Hm w).
  destruct (m w) as [[a|x] w1]; simpl in *.
  - unfold same_store in *.
    destruct (Hk a w1) as [H|H]; [congruence|left|by right]. congruence.
  - left. unfold same_store in *. congruence.
Qed.

Lemma persisted_from w0 w1 w' :
  store w1 = store w0 -> persisted env w1 w' -> persisted env w0 w'.
Proof.
  intros Heq (file & image & raw & text & id & H).
  exists file, image, raw, text, id. by rewrite <- Heq.
Qed.

Lemma main_store w :
  let w' := (main str_datetime env w).2 in
  same_store w w' \/ persisted env w w'.
Proof.
  unfold main. rewrite call_world. unfold main_body.
  destruct w as [[pg ch cp] st u n]. run_det.
  destruct pg as [p|]; run_det.
  all: match goal with
       | |- context [bool_decide (?r = ?p0)] =>
           destruct (bool_decide (r = p0)) eqn:Hnav
       end; run_det; [|by left].
  1: destruct p.
  all: match goal with
       | |- _ \/ persisted env ?w0 _ =>
           apply (bind_same_store_or _ _ (persisted env w0));
           [reflexivity | apply connect_same_store | intros c w1 Hw1]
       end.
  - destruct (extract_page_store c w1) as [H|H]; [by left|right].
    by apply (persisted_from _ w1).
  - left. apply chat_page_same_store.
  - left. apply direct_page_same_store.
  - destruct (extract_page_store c w1) as [H|H]; [by left|right].
    by apply (persisted_from _ w1).
Qed.

End StoreFacts.

(** X3: a run never removes or alters a stored document.  It appends at most
    one, and only when on "Extract Text" the OCR call succeeded with a
    non-empty result, "Submit to Database" was clicked and the insert
    succeeded; the new document holds the extracted text and the current
    time.  In every other run the store is untouched. *)
Theorem store_changes_only_by_submit
    (str_datetime : datetime -> string) (env : Env) (w : World) :
  let w' := (run str_datetime env w).2 in
  (store w' = store w \/ persisted env w w')
  /\ store w `prefix_of` store w'
  /\ length (store w') <= S (length (store w))
  /\ (button env "submit_to_db_button" = false -> store w' = store w)
  /\ (forall e, insert_one env = Raised e -> store w' = store w).
Proof.
  intros w'. subst w'.
  assert (store (run str_datetime env w).2 = store w
          \/ persisted env w (run str_datetime env w).2) as H.
  { unfold run, script. destruct w as [[pg ch cp] st u n]. unfold fresh.
    run_det. destruct cp as [v|]; run_det.
    all: match goal with
         | |- context [main _ ?e ?w1] =>
             destruct (main_store str_datetime e w1) as [H|H]
         end; [by left | by right]. }
  split; [exact H|].
  destruct H as [H|H].
  - rewrite H. repeat split; auto.
  - destruct H as (file & image & raw & text & id & _ & _ & _ & _ & _ & _ & Hb & Hi & Hs).
    rewrite Hs. repeat split.
    + by apply prefix_app_r.
    + rewrite length_app. simpl. lia.
    + congruence.
    + congruence.
Qed.

Lemma store_changes_only_by_submit_witness :
  store (run Demo.clock Demo.failed_persist (initial [Demo.R2])).2 = [Demo.R2].
Proof.
  exact (proj2 (proj2 (proj2 (proj2
           (store_changes_only_by_submit Demo.clock Demo.failed_persist
              (initial [Demo.R2])))))
           (Exception "WriteError" "not primary") eq_refl).
Defined.

(** X4: persisting then listing.  When the insert succeeds,
    [save_to_database] followed by [fetch_stored_prescriptions] lists the
    new document, holding the given text and the current time, among the
    documents stored before, newest first; when the insert fails,
    [save_to_database] returns [None] and the listing is that of the store
    as it was. *)
Theorem persist_then_list
    (env : Env) (text : string) (collection : Collection) (w : World) :
  find_error env = None ->
  (forall id,
     insert_one env = Ok id ->
     let doc := {| doc_id := id; extracted_text := text;
                   upload_date := datetime_now env |} in
     exists listed w',
       bind (save_to_database env text collection)
         (fun _ => fetch_stored_prescriptions env collection) w
       = (inl listed, w')
       /\ In doc listed
       /\ listed ≡ₚ store w ++ [doc]
       /\ Sorted newer_first listed)
  /\ (forall e,
        insert_one env = Raised e ->
        exists w',
          save_to_database env text collection w = (inl None, w')
          /\ store w' = store w
          /\ (fetch_stored_prescriptions env collection w').1
             = inl (find_sorted (store w))).
Proof.
  intros Hfind. split.
  - intros id Hinsert doc.
    unfold save_to_database, fetch_stored_prescriptions.
    rewrite Hinsert, Hfind. run_det.
    eexists _, _. split; [reflexivity|]. split; [|split].
    + apply list_elem_of_In. rewrite find_sorted_permutation.
      apply list_elem_of_In, in_or_app. right. by left.
    + apply find_sorted_permutation.
    + apply find_sorted_sorted.
  - intros e Hinsert.
    unfold save_to_database, fetch_stored_prescriptions.
    rewrite Hinsert, Hfind. run_det.
    eexists. split; [reflexivity|]. split; reflexivity.
Qed.

Lemma persist_then_list_witness :
  exists listed w',
    bind (save_to_database Demo.idle "Ibuprofen 200mg" extracted_texts)
      (fun _ => fetch_stored_prescriptions Demo.idle extracted_texts)
      (initial [Demo.R2])
    = (inl listed, w')
    /\ In {| doc_id := "65f0"; extracted_text := "Ibuprofen 200mg";
             upload_date := 0%Z |} listed
    /\ listed ≡ₚ [Demo.R2] ++ [{| doc_id := "65f0";
                                  extracted_text := "Ibuprofen 200mg";
                                  upload_date := 0%Z |}]
    /\ Sorted newer_first listed.
Proof.
  exact (proj1 (persist_then_list Demo.idle "Ibuprofen 200mg" extracted_texts
                  (initial [Demo.R2]) eq_refl) "65f0" eq_refl).
Defined.

(** ** Navigation *)

Global Instance same_navigation_preorder : PreOrder same_navigation.
Proof.
  split; [intros w; reflexivity|].
  intros a b c H1 H2. unfold same_navigation in *. congruence.
Qed.

Lemma render_same_navigation e w : same_navigation w (render e w).
Proof. reflexivity. Qed.

Lemma sent_same_navigation r w : same_navigation w (sent r w).
Proof. reflexivity. Qed.

Lemma stored_same_navigation d w : same_navigation w (stored d w).
Proof. reflexivity. Qed.

Lemma set_history_same_navigation h w :
  same_navigation w (with_session (set_chat_history h) w).
Proof. reflexivity. Qed.

#[export] Hint Resolve render_same_navigation sent_same_navigation
  stored_same_navigation set_history_same_navigation : frame.

Section NavigationFacts.

Variable str_datetime : datetime -> string.
Variable env : Env.

Lemma submit_same_navigation text c :
  keeps same_navigation (submit_to_database env text c).
Proof. frame. Qed.

Lemma view_same_navigation c :
  keeps same_navigation (view_stored_prescriptions str_datetime env c).
Proof. frame. Qed.

Lemma chat_page_same_navigation c :
  keeps same_navigation (main_chat_with_data str_datetime env c).
Proof. unfold main_chat_with_data. frame. Qed.

Lemma direct_page_same_navigation : keeps same_navigation (main_direct_chat env).
Proof. frame. Qed.

Lemma connect_same_navigation p : keeps same_navigation (connect_if_needed env p).
Proof. frame. Qed.

Lemma extract_page_navigation c w :
  let w' := (main_extract_text str_datetime env c w).2 in
  same_navigation w w' \/ recorded env w'.
Proof.
  unfold main_extract_text, extract_text_from_image,
    chat_with_this_prescription.
  run_det.
  destruct (file_uploader env) as [file|] eqn:Hfile; [|by left].
  destruct (Image_open env file) as [image|e] eqn:Himage; run_det; [|by left].
  destruct (button env "Extract Text") eqn:Hclick; run_det; [|by left].
  destruct (image_to_string env image) as [raw|e] eqn:Hraw; run_det;
    [|by left].
  set (text := if PyStr.truthy raw then PyStr.strip raw else "No text detected").
  destruct (PyStr.truthy text) eqn:Htext; run_det; [|by left].
  destruct c as [c|]; run_det.
  - rewrite (bind_total _ _ _ tt) by apply submit_returns.
    rewrite (bind_total _ _ _ tt) by apply view_returns.
    run_det.
    destruct (button env "chat_prescription_button") eqn:Hchat; run_det.
    + right. exists file, image, raw, text. repeat split; auto.
    + left. simpl.
      etransitivity; [|apply view_same_navigation].
      etransitivity; [|apply submit_same_navigation].
      reflexivity.
  - destruct (button env "chat_prescription_no_db_button") eqn:Hchat;
      run_det.
    + right. exists file, image, raw, text. repeat split; auto.
    + by left.
Qed.

Lemma bind_page_or {A B} (m : M A) (k : A -> M B) (Q : World -> Prop) p w :
  page (session_state w) = Some p ->
  keeps same_navigation m ->
  (forall a w1, page (session_state w1) = Some p ->
                page (session_state (k a w1).2) = Some p \/ Q (k a w1).2) ->
  page (session_state (bind m k w).2) = Some p \/ Q (bind m k w).2.
Proof.
  intros H0 Hm Hk. unfold bind. specialize (Hm w). unfold same_navigation in Hm.
  destruct (m w) as [[a|x] w1]; simpl in *.
  - apply Hk. congruence.
  - left. congruence.
Qed.

Lemma main_navigation w :
  let w' := (main str_datetime env w).2 in
  page (session_state w') = Some (radio env) \/ recorded env w'.
Proof.
  unfold main. rewrite call_world. unfold main_body.
  destruct w as [[pg ch cp] st u n]. run_det.
  destruct pg as [p|]; run_det.
  all: match goal with
       | |- context [bool_decide (?r = ?p0)] =>
           destruct (bool_decide (r = p0)) eqn:Hnav
       end; run_det; [|by left].
  all: apply bool_decide_eq_true in Hnav; rewrite Hnav.
  1: destruct p.
  all: apply (bind_page_or _ _ (recorded env));
    [reflexivity | apply connect_same_navigation | intros c w1 Hw1].
  - destruct (extract_page_navigation c w1) as [H|H]; [left|by right].
    unfold same_navigation in H. congruence.
  - left. rewrite <- Hw1. apply chat_page_same_navigation.
  - left. rewrite <- Hw1. apply direct_page_same_navigation.
  - destruct (extract_page_navigation c w1) as [H|H]; [left|by right].
    unfold same_navigation in H. congruence.
Qed.

(** Lines 172-179: a run whose sidebar choice differs from the session's
    page only navigates. *)
Lemma navigation_run w :
  radio env <> current_page w ->
  run str_datetime env w
  = (inr Rerun,
     {| session_state := navigated (radio env) (session_state w);
        store := store w; ui := main_header; net := [] |}).
Proof.
  intros Hnav. unfold run, script, main, call, main_body, current_page in *.
  destruct w as [[pg ch cp] st u n]. unfold fresh. simpl in Hnav.
  run_det. destruct cp as [v|]; run_det.
  all: destruct pg as [p|]; run_det.
  all: rewrite bool_decide_eq_false_2 by done; run_det.
  all: reflexivity.
Qed.

End NavigationFacts.

(** X5: the sidebar decides the page.  A run whose sidebar choice differs
    from the session's page sets the page to the choice and reruns at once:
    it renders only the header, opens no store connection and leaves the
    transcript, the active prescription text and the store as they were.
    After every run the session's page is the sidebar's choice, unless
    "Chat with this Prescription" was clicked after a successful extraction,
    which leaves "Chat with Prescription Data". *)
Theorem sidebar_decides_page
    (str_datetime : datetime -> string) (env : Env) (w : World) :
  (radio env <> current_page w ->
   run str_datetime env w
   = (inr Rerun,
      {| session_state := navigated (radio env) (session_state w);
         store := store w; ui := main_header; net := [] |}))
  /\ (page (session_state (run str_datetime env w).2) = Some (radio env)
      \/ recorded env (run str_datetime env w).2).
Proof.
  split; [apply navigation_run|].
  unfold run, script. destruct w as [[pg ch cp] st u n]. unfold fresh.
  run_det. destruct cp as [v|]; run_det.
  all: match goal with
       | |- context [main _ ?e ?w1] =>
           destruct (main_navigation str_datetime e w1) as [H|H]
       end; [by left | by right].
Qed.

Lemma sidebar_decides_page_witness :
  run Demo.clock Demo.enter_chat Demo.after_one_turn
  = (inr Rerun,
     {| session_state := navigated ChatWithData (session_state Demo.after_one_turn);
        store := store Demo.after_one_turn; ui := main_header; net := [] |}).
Proof.
  apply (proj1 (sidebar_decides_page Demo.clock Demo.enter_chat Demo.after_one_turn)).
  intros H. vm_compute in H. discriminate H.
Defined.

(** X6: the transition of "Chat with this Prescription" holds only if the
    sidebar follows.  After that click the session is on "Chat with
    Prescription Data"; a next run whose sidebar still says "Extract Text"
    sets the page back to "Extract Text" and reruns, keeping the active
    prescription text. *)
Theorem chat_transition_needs_sidebar
    (str_datetime : datetime -> string) (env1 env2 : Env) (w : World) :
  recorded env1 (run str_datetime env1 w).2 ->
  radio env2 = ExtractText ->
  let w1 := (run str_datetime env1 w).2 in
  (run str_datetime env2 w1).1 = inr Rerun
  /\ page (session_state (run str_datetime env2 w1).2) = Some ExtractText
  /\ active_prescription_text (run str_datetime env2 w1).2
     = active_prescription_text w1
  /\ ui (run str_datetime env2 w1).2 = main_header.
Proof.
  intros Hrec Hradio w1.
  destruct Hrec as (file & image & raw & text & _ & _ & _ & _ & _ & _ & _ & Hcp & Hpage).
  fold w1 in Hcp, Hpage.
  rewrite navigation_run.
  - rewrite Hradio. repeat split.
    unfold active_prescription_text. simpl. by rewrite Hcp.
  - unfold current_page. rewrite Hpage, Hradio. discriminate.
Qed.

Lemma chat_transition_needs_sidebar_witness :
  (run Demo.clock Demo.idle
     (run_session Demo.clock Demo.extract_then_chat (initial []))).1 = inr Rerun
  /\ page (session_state
             (run Demo.clock Demo.idle
                (run_session Demo.clock Demo.extract_then_chat (initial []))).2)
     = Some ExtractText
  /\ active_prescription_text
       (run Demo.clock Demo.idle
          (run_session Demo.clock Demo.extract_then_chat (initial []))).2
     = Some "Amoxicillin 500mg twice daily"
  /\ ui (run Demo.clock Demo.idle
           (run_session Demo.clock Demo.extract_then_chat (initial []))).2
     = main_header.
Proof.
  apply (chat_transition_needs_sidebar Demo.clock
           (Demo.clicking "chat_prescription_button"
              (Demo.extracting (Ok "Amoxicillin 500mg twice daily")))
           Demo.idle (initial [])); [|reflexivity].
  exists "scan.png", (decoded "scan.png"), "Amoxicillin 500mg twice daily",
    "Amoxicillin 500mg twice daily".
  repeat split; try reflexivity. by left.
Defined.

(** ** Extraction *)

(** X7: when the OCR call raises, the page reports the error below the
    spinner and stops: no text, no follow-on control; the run returns
    normally, the store and the transcript are as they were and the active
    prescription text is not set by it. *)
Theorem ocr_failure_run
    (str_datetime : datetime -> string) (env : Env) (w : World)
    (file : UploadedFile) (image : Image) (e : exn) :
  current_page w = ExtractText ->
  radio env = ExtractText ->
  file_uploader env = Some file ->
  Image_open env file = Ok image ->
  button env "Extract Text" = true ->
  image_to_string env image = Raised e ->
  run str_datetime env w
  = (inl tt,
     {| session_state := started_session (session_state w);
        store := store w;
        ui := main_header ++ extract_connection_view env ++ extraction_view
              ++ [st_error ("Error extracting text: " +:+ exn_str e)];
        net := [] |}).
Proof.
  intros Hpage Hradio Hfile Himage Hclick Hraw.
  unfold run, script, main, call, main_body, current_page, fresh,
    extract_connection_view, started_session in *.
  destruct w as [[pg ch cp] st u n]. simpl in Hpage.
  run_det. destruct cp as [v|]; run_det.
  all: destruct pg as [p|]; simpl in Hpage; subst; run_det.
  all: rewrite Hradio; run_det.
  all: unfold connect_if_needed, get_db_connection, main_extract_text,
         extract_text_from_image.
  all: destruct (mongo_ping env) as [e0|]; run_det.
  all: rewrite Hfile, Himage; run_det; rewrite Hclick; run_det.
  all: rewrite Hraw; run_det.
  all: f_equal; apply world_eq; norm_world; simpl; rewrite <- ?app_assoc; done.
Qed.

Lemma ocr_failure_run_witness :
  run Demo.clock
    (Demo.extracting (Raised (Exception "TesseractNotFoundError" "tesseract is not installed")))
    (initial [Demo.R2])
  = (inl tt,
     {| session_state := started_session (session_state (initial [Demo.R2]));
        store := [Demo.R2];
        ui := main_header
              ++ extract_connection_view
                   (Demo.extracting
                      (Raised (Exception "TesseractNotFoundError"
                                 "tesseract is not installed")))
              ++ extraction_view
              ++ [st_error "Error extracting text: tesseract is not installed"];
        net := [] |}).
Proof.
  exact (ocr_failure_run Demo.clock
           (Demo.extracting (Raised (Exception "TesseractNotFoundError"
                                       "tesseract is not installed")))
           (initial [Demo.R2]) "scan.png" (decoded "scan.png")
           (Exception "TesseractNotFoundError" "tesseract is not installed")
           eq_refl eq_refl eq_refl eq_refl eq_refl eq_refl).
Defined.

(** X8: after a successful extraction with a non-empty result the page
    shows the text and its follow-on controls: with a reachable store
    "Submit to Database", "View Stored Prescriptions" and "Chat with this
    Prescription"; with an unreachable store only "Chat with this
    Prescription" and the warning that nothing will be saved.  Rendering
    them changes neither the store nor the transcript nor the active
    prescription text. *)
Theorem extraction_offers_follow_on
    (str_datetime : datetime -> string) (env : Env) (w : World)
    (file : UploadedFile) (image : Image) (raw : string) :
  current_page w = ExtractText ->
  radio env = ExtractText ->
  file_uploader env = Some file ->
  Image_open env file = Ok image ->
  button env "Extract Text" = true ->
  image_to_string env image = Ok raw ->
  let text := if PyStr.truthy raw then PyStr.strip raw else "No text detected" in
  PyStr.truthy text = true ->
  no_follow_on_click env ->
  run str_datetime env w
  = (inl tt,
     {| session_state := started_session (session_state w);
        store := store w;
        ui := main_header ++ extract_connection_view env ++ extraction_view
              ++ [st_subheader "Extracted Text";
                  st_text_area "Result" (Some text) (Some "extracted_text_area")]
              ++ follow_on_view env;
        net := [] |}).
Proof.
  intros Hpage Hradio Hfile Himage Hclick Hraw text Htext (Hb1 & Hb2 & Hb3 & Hb4).
  unfold run, script, main, call, main_body, current_page, fresh,
    extract_connection_view, follow_on_view, started_session in *.
  destruct w as [[pg ch cp] st u n]. simpl in Hpage.
  run_det. destruct cp as [v|]; run_det.
  all: destruct pg as [p|]; simpl in Hpage; subst; run_det.
  all: rewrite Hradio; run_det.
  all: unfold connect_if_needed, get_db_connection, main_extract_text,
         extract_text_from_image, submit_to_database, view_stored_prescriptions,
         chat_with_this_prescription.
  all: destruct (mongo_ping env) as [e0|]; run_det.
  all: rewrite Hfile, Himage; run_det; rewrite Hclick; run_det.
  all: rewrite Hraw; run_det; fold text; rewrite Htext; run_det.
  all: rewrite ?Hb1, ?Hb2, ?Hb3, ?Hb4; run_det.
  all: rewrite ?Hb1, ?Hb2, ?Hb3, ?Hb4; run_det.
  all: rewrite ?Hb1, ?Hb2, ?Hb3, ?Hb4; run_det.
  all: f_equal; apply world_eq; norm_world; simpl; rewrite <- ?app_assoc; done.
Qed.

Lemma extraction_offers_follow_on_witness :
  run Demo.clock Demo.scan_without_store (initial [])
  = (inl tt,
     {| session_state := started_session (session_state (initial []));
        store := [];
        ui := main_header ++ extract_connection_view Demo.scan_without_store
              ++ extraction_view
              ++ [st_subheader "Extracted Text";
                  st_text_area "Result" (Some "Ibuprofen 200mg")
                    (Some "extracted_text_area")]
              ++ [st_button "Chat with this Prescription"
                    (Some "chat_prescription_no_db_button");
                  st_warning "Database connection failed. You can still chat with the prescription but it won't be saved."];
        net := [] |}).
Proof.
  apply (extraction_offers_follow_on Demo.clock Demo.scan_without_store (initial [])
           "scan.png" (decoded "scan.png") "Ibuprofen 200mg");
    try reflexivity.
  by repeat split.
Defined.

(** ** Resolving the prescription data from the active text *)

Section ActiveText.

Variable str_datetime : datetime -> string.
Variable env : Env.

(** Lines 293-303: without stored records the page takes the active
    prescription text. *)
Lemma chat_page_current w text :
  current_prescription (session_state w) = Some (Some text) ->
  PyStr.truthy text = true ->
  mongo_ping env <> None \/ find_error env <> None \/ store w = [] ->
  main_chat_with_data str_datetime env (chat_collection env) w
  = chat_with env (Some text)
      (renders ([st_subheader "Chat with Prescription Data"]
                ++ match mongo_ping env with
                   | Some _ => []
                   | None => fetch_view env
                   end
                ++ [st_info "Using current extracted prescription data."]) w).
Proof.
  intros Hcp Htext Hno.
  assert (has_current_prescription (session_state w) = true) as Hcur.
  { unfold has_current_prescription. by rewrite Hcp. }
  unfold main_chat_with_data, chat_collection, fetch_stored_prescriptions,
    fetch_view, chat_with.
  run_det. rewrite Hcur.
  destruct (mongo_ping env) as [e|]; run_det.
  { rewrite Hcp. run_det. f_equal.
    apply world_eq; norm_world; simpl; rewrite <- ?app_assoc; done. }
  destruct Hno as [Hno|[Hno|Hno]]; [done| |].
  - destruct (find_error env) as [e|]; [|done]. run_det. rewrite Hcp. run_det.
    f_equal. apply world_eq; norm_world; simpl; rewrite <- ?app_assoc; done.
  - destruct (find_error env) as [e|]; run_det.
    + rewrite Hcp. run_det. f_equal.
      apply world_eq; norm_world; simpl; rewrite <- ?app_assoc; done.
    + rewrite Hno. run_det. rewrite Hcp. run_det. f_equal.
      apply world_eq; norm_world; simpl; rewrite <- ?app_assoc; done.
Qed.

End ActiveText.

(** X9: the active prescription text as chat data.  On "Chat with
    Prescription Data" with an active text and no stored record to choose
    from (store unreachable, unreadable or empty) the page renders no
    selector and chats over the active text; with stored records the
    selector's first option, its value unless the user chooses another, is
    "Current Extracted Prescription" and gives the active text too. *)
Theorem active_text_is_chat_data
    (str_datetime : datetime -> string) (env : Env) (w : World) (text : string) :
  page (session_state w) = Some ChatWithData ->
  radio env = ChatWithData ->
  current_prescription (session_state w) = Some (Some text) ->
  PyStr.truthy text = true ->
  (mongo_ping env <> None \/ find_error env <> None \/ store w = [] ->
   exists w_mid,
     run str_datetime env w = call (display_chat_interface env (Some text)) w_mid
     /\ In (st_info "Using current extracted prescription data.") (ui w_mid)
     /\ In (st_text_area "Prescription Data" (Some text) None) (ui w_mid)
     /\ forall label options, ~ In (st_selectbox label options) (ui w_mid))
  /\ (mongo_ping env = None -> find_error env = None -> store w <> [] ->
      selectbox env
        (prescription_options str_datetime true (find_sorted (store w))) = 0 ->
      exists w_mid,
        run str_datetime env w = call (display_chat_interface env (Some text)) w_mid
        /\ In (st_text_area "Prescription Data" (Some text) None) (ui w_mid)).
Proof.
  intros Hpage Hradio Hcp Htext.
  assert (has_current_prescription (session_state w) = true) as Hcur.
  { unfold has_current_prescription. by rewrite Hcp. }
  split.
  - intros Hno. rewrite chat_page_run by done. unfold call at 1.
    rewrite (chat_page_current str_datetime env _ text); [| |done|done].
    2: { simpl. by rewrite Hcp. }
    unfold chat_with. eexists. split.
    { unfold call. run_det. reflexivity. }
    cbn [ui render renders session_state store net].
    unfold main_header, chat_connection_view, fetch_view.
    split; [|split].
    + rewrite !in_app_iff. simpl. rewrite !in_app_iff. simpl. intuition.
    + rewrite !in_app_iff. simpl. intuition.
    + intros label options. rewrite !in_app_iff. simpl. rewrite !in_app_iff.
      destruct (mongo_ping env), (find_error env); simpl; intuition discriminate.
  - intros Hping Hfind Hstore Hsel.
    rewrite chat_page_selector_run by done. rewrite Hcur.
    unfold selected_option. rewrite Hsel.
    unfold prescription_options at 1 2. cbn [lookup list_lookup default id].
    unfold resolve. simpl String.eqb. cbv iota.
    eexists. split.
    { unfold call, read_current_prescription. run_det.
      rewrite Hcp. unfold chat_with. run_det. reflexivity. }
    cbn [ui render chat_page_world]. apply in_or_app. right. by left.
Qed.

Lemma active_text_is_chat_data_witness :
  exists w_mid,
    run Demo.clock Demo.enter_chat_without_store Demo.with_active_text
    = call (display_chat_interface Demo.enter_chat_without_store
              (Some "Amoxicillin 500mg twice daily")) w_mid
    /\ In (st_info "Using current extracted prescription data.") (ui w_mid)
    /\ In (st_text_area "Prescription Data"
             (Some "Amoxicillin 500mg twice daily") None) (ui w_mid)
    /\ forall label options, ~ In (st_selectbox label options) (ui w_mid).
Proof.
  apply (proj1 (active_text_is_chat_data Demo.clock Demo.enter_chat_without_store
                  Demo.with_active_text "Amoxicillin 500mg twice daily"
                  eq_refl eq_refl eq_refl eq_refl)).
  left. discriminate.
Defined.

(** ** Surrounding whitespace *)

Lemma append_assoc (s t u : string) : (s +:+ t) +:+ u = s +:+ (t +:+ u).
Proof. induction s as [|c s IH]; [done|]. by rewrite !append_cons, IH. Qed.

Lemma rev_app_append (a b t : string) :
  String.rev_app (a +:+ b) t = String.rev_app b (String.rev_app a t).
Proof.
  revert t. induction a as [|c a IH]; intros t; [done|].
  rewrite append_cons. cbn [String.rev_app]. apply IH.
Qed.

Lemma rev_snoc (a : string) (c : ascii) :
  String.rev (a +:+ String c EmptyString) = String c (String.rev a).
Proof. unfold String.rev. by rewrite rev_app_append. Qed.

Lemma rev_cons (c : ascii) (s : string) :
  String.rev (String c s) = String.rev s +:+ String c EmptyString.
Proof.
  rewrite <- (rev_involutive (String.rev s +:+ String c EmptyString)).
  by rewrite rev_snoc, rev_involutive.
Qed.

Lemma lstrip_starts_clean s : starts_clean (PyStr.lstrip s) = true.
Proof.
  induction s as [|c s IH]; [done|]. simpl.
  destruct (PyStr.isspace c) eqn:Hc; [done|]. simpl. by rewrite Hc.
Qed.

Lemma lstrip_clean s : starts_clean s = true -> PyStr.lstrip s = s.
Proof.
  destruct s as [|c s]; [done|]. simpl.
  by destruct (PyStr.isspace c).
Qed.

Lemma lstrip_before_clean (a b : string) (c : ascii) :
  PyStr.isspace c = false ->
  PyStr.lstrip (a +:+ String c b) = PyStr.lstrip a +:+ String c b.
Proof.
  intros Hc. induction a as [|d a IH].
  - change (EmptyString +:+ String c b) with (String c b). simpl. by rewrite Hc.
  - rewrite append_cons. simpl. destruct (PyStr.isspace d); [done|].
    by rewrite append_cons.
Qed.

Lemma rstrip_cons (c : ascii) (s : string) :
  PyStr.isspace c = false ->
  PyStr.rstrip (String c s) = String c (PyStr.rstrip s).
Proof.
  intros Hc. unfold PyStr.rstrip.
  by rewrite rev_cons, lstrip_before_clean, rev_snoc.
Qed.

Lemma rstrip_idempotent s : PyStr.rstrip (PyStr.rstrip s) = PyStr.rstrip s.
Proof.
  unfold PyStr.rstrip. rewrite rev_involutive.
  by rewrite (lstrip_clean _ (lstrip_starts_clean _)).
Qed.

(** [s.strip().strip()] is [s.strip()]. *)
Lemma strip_idempotent s : PyStr.strip (PyStr.strip s) = PyStr.strip s.
Proof.
  unfold PyStr.strip.
  pose proof (lstrip_starts_clean s) as Hclean.
  destruct (PyStr.lstrip s) as [|c x]; [done|].
  simpl in Hclean. apply negb_true_iff in Hclean.
  rewrite (rstrip_cons _ _ Hclean).
  rewrite (lstrip_clean (String c _)) by (simpl; by rewrite Hclean).
  by rewrite (rstrip_cons _ _ Hclean), rstrip_idempotent.
Qed.

(** X10: [extract_text_from_image] never raises and leaves a text without
    surrounding whitespace: stripping it again changes nothing.  It gives
    [None], after rendering the error, exactly when the OCR call raises;
    otherwise it renders nothing. *)
Theorem extracted_text_is_stripped (env : Env) (image : Image) (w : World) :
  match extract_text_from_image env image w with
  | (inl (Some text), w') =>
      PyStr.strip text = text /\ w' = w
      /\ exists raw, image_to_string env image = Ok raw
  | (inl None, w') =>
      exists e, image_to_string env image = Raised e
                /\ w' = render (st_error ("Error extracting text: " +:+ exn_str e)) w
  | (inr _, _) => False
  end.
Proof.
  unfold extract_text_from_image.
  destruct (image_to_string env image) as [raw|e]; run_det.
  - repeat split; [|by exists raw].
    destruct (PyStr.truthy raw); [apply strip_idempotent|done].
  - by exists e.
Qed.

(** ** The transcript as shown *)

Lemma role_of_role_name r : role_of_name (role_name r) = Some r.
Proof. by destruct r. Qed.

Lemma shown_transcript (h : list ChatMessage) (rest : list UI) :
  shown_messages (transcript_view h ++ rest) = h ++ shown_messages rest.
Proof.
  induction h as [|[r c] h IH]; [done|].
  unfold transcript_view in *. cbn [flat_map app role content].
  cbn [shown_messages]. rewrite role_of_role_name. by rewrite IH.
Qed.

(** X11: the chat panel shows the whole transcript in order: the messages
    stored by earlier runs, then the question and the reply of the turn
    processed in this run.  What it shows is what it stores for the next
    run, unless "Clear Chat History" was clicked, which stores the empty
    transcript. *)
Theorem panel_shows_transcript (env : Env) (data : option string) (w : World) :
  exists rendered,
    ui (display_chat_interface env data w).2 = ui w ++ rendered
    /\ shown_messages rendered = history w ++ turn_messages env data
    /\ history (display_chat_interface env data w).2
       = (if button env clear_key then [] else shown_messages rendered).
Proof.
  rewrite display_chat_interface_eq. cbn [snd].
  exists (panel_view env data (history w)).
  assert (shown_messages (panel_view env data (history w))
          = history w ++ turn_messages env data) as Hshown.
  { unfold panel_view. cbn [app shown_messages]. rewrite shown_transcript.
    f_equal. unfold turn_view, turn_messages, clear_view.
    destruct (submitted env) as [query|]; cbn [app shown_messages].
    - simpl. by destruct (history w).
    - rewrite app_nil_r. by destruct (history w). }
  split; [done|]. split; [done|]. rewrite Hshown.
  unfold after_panel, history at 1. cbn [session_state set_chat_history chat_history].
  simpl. unfold clear_clicked.
  destruct (history w ++ turn_messages env data); [by destruct (button env clear_key)|done].
Qed.

(** ** The page "Direct Chat" *)

Section DirectChatFacts.

Variable str_datetime : datetime -> string.
Variable env : Env.

Lemma direct_page_run w :
  page (session_state w) = Some DirectChat ->
  radio env = DirectChat ->
  run str_datetime env w
  = call (display_chat_interface env None)
      {| session_state := bound_session (session_state w);
         store := store w;
         ui := main_header ++ direct_view;
         net := [] |}.
Proof.
  intros Hpage Hradio. unfold run, script, main, fresh, main_body.
  destruct w as [[pg ch cp] st u n]. simpl in Hpage. subst pg.
  run_det. destruct cp as [v|]; run_det.
  all: rewrite Hradio; run_det.
  all: unfold main_direct_chat; run_det; reflexivity.
Qed.

Lemma transcript_no_status h e :
  In e (transcript_view h) -> status_message e = false.
Proof.
  unfold transcript_view. rewrite in_flat_map.
  intros (m & _ & [<-|[<-|[]]]); done.
Qed.

Lemma panel_no_status data h e :
  In e (panel_view env data h) -> status_message e = false.
Proof.
  unfold panel_view. rewrite !in_app_iff.
  intros [[<-|[]]|[H|[[<-|[]]|[H|H]]]]; try done.
  - by apply (transcript_no_status h).
  - unfold turn_view in H. destruct (submitted env); [|done].
    simpl in H. by destruct H as [<-|[<-|[<-|[<-|[<-|[]]]]]].
  - unfold clear_view in H. destruct (h ++ _); [done|].
    by destruct H as [<-|[]].
Qed.

End DirectChatFacts.

(** X12: "Direct Chat" is general.  A run on this page does not contact
    the store (it renders no status message and leaves the store as it
    was) and sends at most one request, which carries the question and the
    general system message, whatever the active prescription text is. *)
Theorem direct_chat_is_general
    (str_datetime : datetime -> string) (env : Env) (w : World) :
  page (session_state w) = Some DirectChat ->
  radio env = DirectChat ->
  store (run str_datetime env w).2 = store w
  /\ (forall e, In e (ui (run str_datetime env w).2) -> status_message e = false)
  /\ (net (run str_datetime env w).2 = []
      \/ exists key query,
           MISTRAL_API_KEY env = Some key /\ chat_input env = Some query
           /\ net (run str_datetime env w).2
              = [completion_request key query None]).
Proof.
  intros Hpage Hradio. rewrite direct_page_run by done.
  rewrite call_world, display_chat_interface_eq. cbn [snd].
  unfold after_panel. cbn [store ui net]. split; [done|]. split.
  - intros e. rewrite !in_app_iff. intros [[H|H]|H].
    + unfold main_header in H. simpl in H.
      by destruct H as [<-|[<-|[<-|[<-|[]]]]].
    + unfold direct_view in H. by destruct H as [<-|[<-|[]]].
    + exact (panel_no_status env None _ e H).
  - unfold turn_requests, submitted, requests, credential.
    destruct (chat_input env) as [query|]; [|by left].
    destruct (PyStr.truthy query); [|by left].
    destruct (MISTRAL_API_KEY env) as [key|]; [|by left].
    destruct (PyStr.truthy key); [|by left].
    right. by exists key, query.
Qed.

Lemma direct_chat_is_general_witness :
  store (run Demo.clock (Demo.on_page DirectChat Demo.idle)
           Demo.after_one_turn).2 = store Demo.after_one_turn
  /\ (forall e,
        In e (ui (run Demo.clock (Demo.on_page DirectChat Demo.idle)
                    Demo.after_one_turn).2) ->
        status_message e = false)
  /\ (net (run Demo.clock (Demo.on_page DirectChat Demo.idle)
             Demo.after_one_turn).2 = []
      \/ exists key query,
           MISTRAL_API_KEY (Demo.on_page DirectChat Demo.idle) = Some key
           /\ chat_input (Demo.on_page DirectChat Demo.idle) = Some query
           /\ net (run Demo.clock (Demo.on_page DirectChat Demo.idle)
                     Demo.after_one_turn).2
              = [completion_request key query None]).
Proof.
  apply (direct_chat_is_general Demo.clock (Demo.on_page DirectChat Demo.idle)
           Demo.after_one_turn); reflexivity.
Defined.

(** ** The listing of stored prescriptions *)

Lemma listing_texts str_datetime (f : nat -> nat) (l : list Prescription) :
  omap text_area_value
    (flat_map (listing_entry str_datetime) (imap (fun i => pair (f i)) l))
  = map extracted_text l.
Proof.
  revert f. induction l as [|p l IH]; intros f; [done|].
  cbn [imap flat_map listing_entry app omap list_omap text_area_value map fst snd].
  f_equal. apply (IH (f ∘ S)).
Qed.

Lemma listing_keys str_datetime (f : nat -> nat) (l : list Prescription) :
  omap widget_key
    (flat_map (listing_entry str_datetime) (imap (fun i => pair (f i)) l))
  = map (fun i => "text_" +:+ PyStr.of_nat (f i)) (seq 0 (length l)).
Proof.
  revert f. induction l as [|p l IH]; intros f; [done|].
  cbn [imap flat_map listing_entry app omap list_omap widget_key map fst snd
       length seq].
  f_equal. rewrite <- seq_shift, map_map. apply (IH (f ∘ S)).
Qed.

Lemma listing_keys_distinct (n : nat) :
  NoDup ("view_prescriptions_button"
         :: map (fun i => "text_" +:+ PyStr.of_nat i) (seq 0 n)).
Proof.
  apply NoDup_cons. split.
  - intros (i & Hi & _)%list_elem_of_fmap. rewrite !append_cons in Hi.
    discriminate Hi.
  - assert (Inj (=) (=) (fun i => "text_" +:+ PyStr.of_nat i)) as Hinj.
    { intros i j Hij. rewrite !append_cons in Hij.
      injection Hij as Hij. by apply (inj pretty). }
    apply (NoDup_fmap_2 _), NoDup_seq.
Qed.

Section Listing.

Variable str_datetime : datetime -> string.
Variable env : Env.

Lemma for_each_listing (l : list (nat * Prescription)) w :
  for_each l (fun '(idx, prescription) =>
    emit (st_write (JStr ("Prescription " +:+ PyStr.of_nat (idx + 1) +:+ " - "
                          +:+ str_datetime (upload_date prescription)))) >>
    emit (st_text_area ("Text " +:+ PyStr.of_nat (idx + 1))
            (Some (extracted_text prescription))
            (Some ("text_" +:+ PyStr.of_nat idx)))) w
  = (inl tt, renders (flat_map (listing_entry str_datetime) l) w).
Proof.
  apply (for_each_renders (listing_entry str_datetime)).
  intros [idx prescription] w'. unfold listing_entry. run_det.
  f_equal. apply world_eq; norm_world; try done. by rewrite <- app_assoc.
Qed.

End Listing.

(** X13: a click on "View Stored Prescriptions" lists every stored document
    exactly once, newest first, each with its text, under widget keys that
    are pairwise distinct; it changes neither the store nor the session.
    Over an empty store it reports "No prescriptions found in database",
    and so it does, after the error, when the query fails. *)
Theorem stored_listing
    (str_datetime : datetime -> string) (env : Env) (c : Collection) (w : World) :
  button env "view_prescriptions_button" = true ->
  exists rendered listed,
    view_stored_prescriptions str_datetime env c w = (inl tt, renders rendered w)
    /\ NoDup (omap widget_key rendered)
    /\ omap text_area_value rendered = map extracted_text listed
    /\ match find_error env with
       | None =>
           listed ≡ₚ store w /\ Sorted newer_first listed
           /\ (In (st_info "No prescriptions found in database") rendered
               <-> store w = [])
       | Some e =>
           listed = []
           /\ In (st_error ("Error fetching prescriptions: " +:+ exn_str e)) rendered
           /\ In (st_info "No prescriptions found in database") rendered
       end.
Proof.
  intros Hclick.
  unfold view_stored_prescriptions, fetch_stored_prescriptions.
  run_det. rewrite Hclick. run_det.
  destruct (find_error env) as [e|]; run_det.
  { eexists [_; _; _; _], []. split; [|split; [|split]].
    - f_equal. apply world_eq; norm_world; try done.
      rewrite <- !app_assoc. reflexivity.
    - cbn. apply NoDup_singleton.
    - done.
    - split; [done|]. simpl. tauto. }
  pose proof (find_sorted_permutation (store w)) as Hperm.
  pose proof (find_sorted_sorted (store w)) as Hsorted.
  pose proof (find_sorted_nil (store w)) as Hnil.
  destruct (find_sorted (store w)) as [|p l] eqn:Hl.
  - run_det. eexists [_; _; _], []. split; [|split; [|split]].
    + f_equal. apply world_eq; norm_world; try done.
      rewrite <- !app_assoc. reflexivity.
    + cbn. apply NoDup_singleton.
    + done.
    + split; [done|]. split; [done|]. split; [by intros _; apply Hnil|].
      intros _. simpl. tauto.
  - run_det. rewrite for_each_listing.
    exists ([st_button "View Stored Prescriptions" (Some "view_prescriptions_button");
             st_spinner "Fetching prescriptions...";
             st_subheader "Stored Prescriptions"]
            ++ flat_map (listing_entry str_datetime) (imap pair (p :: l))),
           (p :: l).
    split; [|split; [|split]].
    + f_equal. apply world_eq; norm_world; try done.
      rewrite <- !app_assoc. reflexivity.
    + cbn [app omap list_omap widget_key].
      rewrite (listing_keys str_datetime id). apply listing_keys_distinct.
    + cbn [app omap list_omap text_area_value].
      apply (listing_texts str_datetime id).
    + split; [done|]. split; [done|]. split.
      * rewrite in_app_iff. intros [H|H].
        { simpl in H. by destruct H as [H|[H|[H|[]]]]. }
        apply in_flat_map in H as ([idx q] & _ & H). unfold listing_entry in H.
        simpl in H. by destruct H as [H|[H|[]]].
      * intros Hw. by apply Hnil in Hw.
Qed.

Lemma stored_listing_witness :
  exists rendered listed,
    view_stored_prescriptions Demo.clock
      (Demo.clicking "view_prescriptions_button" Demo.idle) extracted_texts
      (initial [Demo.R2; Demo.R1])
    = (inl tt, renders rendered (initial [Demo.R2; Demo.R1]))
    /\ NoDup (omap widget_key rendered)
    /\ omap text_area_value rendered = map extracted_text listed
    /\ match find_error (Demo.clicking "view_prescriptions_button" Demo.idle) with
       | None =>
           listed ≡ₚ store (initial [Demo.R2; Demo.R1])
           /\ Sorted newer_first listed
           /\ (In (st_info "No prescriptions found in database") rendered
               <-> store (initial [Demo.R2; Demo.R1]) = [])
       | Some e =>
           listed = []
           /\ In (st_error ("Error fetching prescriptions: " +:+ exn_str e)) rendered
           /\ In (st_info "No prescriptions found in database") rendered
       end.
Proof.
  apply (stored_listing Demo.clock
           (Demo.clicking "view_prescriptions_button" Demo.idle) extracted_texts
           (initial [Demo.R2; Demo.R1])).
  reflexivity.
Defined.

(** ** The reply of the chat completion service *)

(** X14: with a credential and a well-formed answer of the service,
    [query_mistral_api] sends one request and returns the content of the
    message of the first choice, whatever JSON value it is; further choices
    and other fields of the answer are ignored, and nothing is rendered. *)
Theorem completion_is_the_reply
    (env : Env) (prompt : string) (data : option string) (w : World)
    (key : string) (response : Response)
    (items choice message : list (string * json)) (others : list json)
    (text : json) :
  MISTRAL_API_KEY env = Some key ->
  PyStr.truthy key = true ->
  requests_post env (completion_request key prompt data) = Ok response ->
  status_error response = None ->
  body response = Ok (JObj items) ->
  Py.assoc "choices" items = Some (JArr (JObj choice :: others)) ->
  Py.assoc "message" choice = Some (JObj message) ->
  Py.assoc "content" message = Some text ->
  query_mistral_api env prompt data w
  = (inl text, sent (completion_request key prompt data) w).
Proof.
  intros Hkey Htruthy Hpost Hstatus Hbody Hchoices Hmessage Hcontent.
  unfold query_mistral_api, try_except, query_mistral_api_try, post,
    raise_for_status.
  rewrite Hkey, Htruthy. run_det. rewrite Hpost. run_det.
  rewrite Hstatus. run_det. rewrite Hbody. run_det.
  rewrite Hchoices. run_det. rewrite Hmessage. run_det.
  rewrite Hcontent. run_det. reflexivity.
Qed.

Lemma completion_is_the_reply_witness :
  query_mistral_api answering "What is the dosage?" (Some "Ibuprofen 200mg")
    (initial [])
  = (inl (JStr "Twice daily."),
     sent (completion_request "sk-test" "What is the dosage?"
             (Some "Ibuprofen 200mg")) (initial [])).
Proof.
  eapply (completion_is_the_reply answering "What is the dosage?"
            (Some "Ibuprofen 200mg") (initial []) "sk-test" completion_response);
    reflexivity.
Defined.
